(** * MarketServiceAgent: phase state machine and admission gate

    A shallow embedding of
    [services/core/MarketServiceAgent/market_service/agent.py].

    The agent owns one piece of mutable state that matters here, the
    attribute [state] maintained by a [transitions.Machine], and it talks to
    four collaborators that live in other modules: the registry
    ([MarketList]), the timer ([Director]), the curve factory
    ([PolyLineFactory]) and the message bus ([vip.pubsub]).  The collaborators
    are interfaces (type classes) below; the agent's own methods are written
    in a small state-and-exception monad over the agent object. *)

From Stdlib Require Import ZArith Ascii String List Bool Lia.
From stdpp Require Import base option list strings pretty gmap.

Local Open Scope string_scope.
Local Open Scope Z_scope.

(** ** Exceptions and outcomes *)

(** The Python exceptions that can travel through the agent's methods.
    [OtherError] is an exception of any other class derived from
    [StandardError] (an [IOError], an [OverflowError]); [NonStandardError] is
    one of a class outside it ([KeyboardInterrupt], [SystemExit], a class
    derived from [Exception] directly). *)
Inductive exn : Type :=
| RuntimeError (msg : string)
| MachineError (msg : string)
| AttributeError (msg : string)
| MalformedCurve
| OtherError (cls msg : string)
| ValueError (msg : string)
| TypeError (msg : string)
| SchedulerMisconfiguration
| NonStandardError (cls msg : string).

(** What [except StandardError] catches.  The library's [MachineError] derives
    from [Exception]; the two failures that only the specification names are
    not known to derive from [StandardError] and are not taken to. *)
Definition is_StandardError (e : exn) : bool :=
  match e with
  | RuntimeError _ | AttributeError _ | OtherError _ _
  | ValueError _ | TypeError _ => true
  | MachineError _ | MalformedCurve | SchedulerMisconfiguration
  | NonStandardError _ _ => false
  end.

(** A call either returns a value or raises. *)
Inductive outcome (A : Type) : Type :=
| Return (a : A)
| Raise (e : exn).
Arguments Return {A} a.
Arguments Raise {A} e.

Definition returned {A} (o : outcome A) : bool :=
  match o with Return _ => true | Raise _ => false end.

(** ** Configuration values and [int]

    The values a loaded configuration can hold.  A finite float is
    [mantissa * 2 ^ exponent]; [VOther] is a value of any other type ([None],
    a list, a dictionary), given by the name of its type. *)
Inductive value : Type :=
| VInt (z : Z)
| VBool (b : bool)
| VFloat (mantissa exponent : Z)
| VNaN
| VInf
| VStr (s : string)
| VOther (type_name : string).

(** The part of the language's builtins that is taken as given: how [int]
    reads a string ([None] when the string is not an integer literal). *)
Class Builtins : Type := {
  int_of_str : string → option Z
}.

(** [int(x)]: an integer is itself, [True] and [False] are 1 and 0, a float
    is truncated towards zero, a string is read as a literal, and anything
    else is a [TypeError]. *)
Definition int `{Builtins} (x : value) : outcome Z :=
  match x with
  | VInt z => Return z
  | VBool b => Return (if b then 1 else 0)
  | VFloat m e =>
      Return (if 0 <=? e then m * 2 ^ e else Z.quot m (2 ^ (- e)))
  | VNaN => Raise (ValueError "cannot convert float NaN to integer")
  | VInf => Raise (OtherError "OverflowError"
                     "cannot convert float infinity to integer")
  | VStr s =>
      match int_of_str s with
      | Some z => Return z
      | None =>
          Raise (ValueError
                   ("invalid literal for int() with base 10: '" +:+ s +:+ "'"))
      end
  | VOther type_name =>
      Raise (TypeError
               ("int() argument must be a string or a number, not '"
                +:+ type_name +:+ "'"))
  end.

(** ** Module constants *)

Definition INITIAL_WAIT : string := "service_initial_wait".
Definition COLLECT_RESERVATIONS : string := "service_collect_reservations".
Definition COLLECT_OFFERS : string := "service_collect_offers".
Definition NO_MARKETS : string := "service_has_no_markets".

(** One entry of the class attribute [transitions]. *)
Record Transition : Type := mkTransition {
  trigger : string;
  source : string;
  dest : string
}.

Definition states : list string :=
  [INITIAL_WAIT; COLLECT_RESERVATIONS; COLLECT_OFFERS; NO_MARKETS].

Definition transitions : list Transition :=
  [ mkTransition "start_reservations" INITIAL_WAIT COLLECT_RESERVATIONS;
    mkTransition "start_offers_no_markets" COLLECT_RESERVATIONS NO_MARKETS;
    mkTransition "start_offers_has_markets" COLLECT_RESERVATIONS COLLECT_OFFERS;
    mkTransition "start_reservations" COLLECT_OFFERS COLLECT_RESERVATIONS;
    mkTransition "start_reservations" NO_MARKETS COLLECT_RESERVATIONS ].

(** ** The state machine library

    [Machine(model=self, states=..., transitions=..., initial=INITIAL_WAIT)]
    is built with the library's default options: no conditions, no callbacks
    and [ignore_invalid_triggers] left unset.  For every trigger name of the
    table the library adds a method of that name to the model.  Calling it
    looks for the transitions of that trigger whose source is the model's
    current state; the first one is executed (the state becomes its
    destination and the call returns [True]); when there is none the library
    raises [MachineError] and the state is left as it was.  With
    [auto_transitions] left at its default the library also adds, for every
    state, a method [to_<state>] that moves the model to that state from any
    state; the agent never calls one. *)
Module Machine.

Definition matches (name st : string) (t : Transition) : bool :=
  bool_decide (trigger t = name) && bool_decide (source t = st).

(** The transitions registered for event [name] from state [st]. *)
Definition candidates (tbl : list Transition) (name st : string)
  : list Transition :=
  List.filter (matches name st) tbl.

(** The names of the events of a table, each once. *)
Definition events (tbl : list Transition) : list string :=
  remove_dups (trigger <$> tbl).

Definition cannot_trigger (name st : string) : string :=
  "Can't trigger event " +:+ name +:+ " from state " +:+ st +:+ "!".

(** The state that the generated method [name] moves to, when [name] is
    [to_<state>] for a state of the machine. *)
Definition auto_transition (name : string) : option string :=
  List.find (λ st, bool_decide (name = "to_" +:+ st)) states.

(** Firing event [name] while the model is in state [st]: the new state,
    or the exception raised. *)
Definition trigger_event (tbl : list Transition) (name st : string)
  : outcome string :=
  if bool_decide (name ∈ events tbl) then
    match candidates tbl name st with
    | t :: _ => Return (dest t)
    | [] => Raise (MachineError (cannot_trigger name st))
    end
  else
    match auto_transition name with
    | Some st' => Return st'
    | None =>
        Raise (AttributeError
                 ("'MarketServiceAgent' object has no attribute '"
                  +:+ name +:+ "'"))
    end.

End Machine.

(** The phase after a trigger call, whether it returned or raised. *)
Definition next_phase (name st : string) : string :=
  match Machine.trigger_event transitions name st with
  | Return st' => st'
  | Raise _ => st
  end.

(** Once a list of phases has left [service_initial_wait] it does not show it
    again. *)
Definition never_reentered (seen : list string) : Prop :=
  ∀ (i j : nat) (s : string),
    (i ≤ j)%nat → seen !! i = Some s → s ≠ INITIAL_WAIT →
    seen !! j ≠ Some INITIAL_WAIT.

(** ** Collaborator interfaces *)

(** [MarketParticipant(buyer_seller, identity)].

    Modelled from the spec: the class is defined in
    [market_service.market_participant], not here; the specification gives a
    participant as the pair of the role and the identity of the requester. *)
Record MarketParticipant : Type := mkMarketParticipant {
  buyer_seller : string;
  identity : string
}.

(** [volttron.platform]: configuration loading, timestamp formatting and the
    two topics of [volttron.platform.messaging.topics]. *)
Class Platform : Type := {
  Timestamp : Type;
  format_timestamp : Timestamp → string;
  MARKET_RESERVE : string;
  MARKET_BID : string;
  load_config : string → outcome (gmap string value)
}.

(** [PolyLineFactory.fromTupples]: the raw offer of the remote call is turned
    into a curve.

    Modelled from the spec: the factory is not part of this module; the
    specification gives it as [CurveParser.parse(rawPairs) -> Curve], which
    fails with [MalformedCurve] on invalid input.  [parse_tupples] answers
    [None] exactly on the invalid inputs. *)
Class Curves : Type := {
  Offer : Type;
  PolyLine : Type;
  parse_tupples : Offer → option PolyLine
}.

Definition fromTupples `{Curves} (offer : Offer) : outcome PolyLine :=
  match parse_tupples offer with
  | Some curve => Return curve
  | None => Raise MalformedCurve
  end.

(** [market_service.market_list.MarketList]: the registry.  The methods that
    modify the registry may raise and give the registry as they leave it; the
    two queries only read.  The registry is built with the bus's publish
    function and the verbose flag; what a method of the registry publishes
    through that function is the registry's doing and belongs to the registry
    as a method leaves it, it is not recorded among the agent's own calls. *)
Class MarketListOps `{Curves} : Type := {
  MarketList : Type;
  MarketList_new : Z → MarketList;
  ml_send_market_failure_errors : MarketList → outcome unit * MarketList;
  ml_clear_reservations : MarketList → outcome unit * MarketList;
  ml_collect_offers : MarketList → outcome unit * MarketList;
  ml_make_reservation :
    string → MarketParticipant → MarketList → outcome unit * MarketList;
  ml_make_offer :
    string → MarketParticipant → PolyLine → MarketList → outcome unit * MarketList;
  ml_unformed_market_list : MarketList → list string;
  ml_market_count : MarketList → Z
}.

(** [market_service.director.Director]: the timer.  Its constructor
    receives the three configured durations; its [start] method, which
    receives the agent, is a parameter of [onstart] below. *)
Class DirectorOps : Type := {
  Director : Type;
  Director_new : Z → Z → Z → outcome Director
}.

(** ** The agent *)

Section Agent.

Context `{Platform} `{MarketListOps} `{DirectorOps}.

(** The payload of a publication: the reservation notice is one formatted
    timestamp, the offer notice is the list
    [[format_timestamp(timestamp), unformed_markets]]. *)
Inductive Message : Type :=
| MsgTimestamp (ts : string)
| MsgOffers (ts : string) (unformed_markets : list string).

(** What the agent does to the outside, in the order it does it: the
    [_log.info] records of its admission decisions, the calls of the
    registry's modifying methods and the publications on the bus. *)
Inductive Call : Type :=
| log_info (fmt : string) (args : list string)
| call_send_market_failure_errors
| call_clear_reservations
| call_collect_offers
| call_make_reservation (market_name : string) (participant : MarketParticipant)
| call_make_offer (market_name : string) (participant : MarketParticipant)
    (curve : PolyLine)
| call_publish (peer topic : string) (message : Message).

(** The attributes of a [MarketServiceAgent] object, and the calls it has
    made so far. *)
Record MarketServiceAgent : Type := mkAgent {
  state : string;
  market_list : option MarketList;
  verbose_logging : Z;
  director : Director;
  calls : list Call
}.

Definition set_state (st : string) (a : MarketServiceAgent) :=
  mkAgent st (market_list a) (verbose_logging a) (director a) (calls a).
Definition set_market_list (ml : option MarketList) (a : MarketServiceAgent) :=
  mkAgent (state a) ml (verbose_logging a) (director a) (calls a).
Definition record_call (c : Call) (a : MarketServiceAgent) :=
  mkAgent (state a) (market_list a) (verbose_logging a) (director a)
    (calls a ++ [c]).

(** A method of the agent: it may change the object and either returns or
    raises; what was changed before an exception stays changed. *)
Definition Py (A : Type) : Type :=
  MarketServiceAgent → outcome A * MarketServiceAgent.

Definition ret {A} (x : A) : Py A := λ a, (Return x, a).
Definition raise {A} (e : exn) : Py A := λ a, (Raise e, a).
Definition bind {A B} (m : Py A) (k : A → Py B) : Py B := λ a,
  match m a with
  | (Return x, a') => k x a'
  | (Raise e, a') => (Raise e, a')
  end.

Notation "x <- m ;; k" := (bind m (λ x, k))
  (at level 60, m at next level, right associativity).
Notation "m ;;; k" := (bind m (λ _, k))
  (at level 60, right associativity).

Definition emit (c : Call) : Py unit := λ a, (Return tt, record_call c a).

(** [self.market_list.<meth>(...)] for a method that modifies the
    registry. *)
Definition registry_call (c : Call) (meth : string)
    (f : MarketList → outcome unit * MarketList) : Py unit := λ a,
  match market_list a with
  | None =>
      (Raise (AttributeError
                ("'NoneType' object has no attribute '" +:+ meth +:+ "'")), a)
  | Some ml =>
      let '(o, ml') := f ml in
      (o, set_market_list (Some ml') (record_call c a))
  end.

(** [self.market_list.<meth>()] for a query. *)
Definition registry_query {A} (meth : string) (f : MarketList → A) : Py A := λ a,
  match market_list a with
  | None =>
      (Raise (AttributeError
                ("'NoneType' object has no attribute '" +:+ meth +:+ "'")), a)
  | Some ml => (Return (f ml), a)
  end.

(** [self.vip.pubsub.publish(peer=..., topic=..., message=...)]. *)
Definition publish (peer topic : string) (message : Message) : Py unit :=
  emit (call_publish peer topic message).

(** The trigger methods that the [Machine] adds to the agent. *)
Definition fire (name : string) : Py bool := λ a,
  match Machine.trigger_event transitions name (state a) with
  | Return st' => (Return true, set_state st' a)
  | Raise e => (Raise e, a)
  end.

Definition start_reservations : Py bool := fire "start_reservations".
Definition start_offers_no_markets : Py bool := fire "start_offers_no_markets".
Definition start_offers_has_markets : Py bool := fire "start_offers_has_markets".

(** [MarketServiceAgent.__init__]. *)
Definition __init__ (market_period reservation_delay offer_delay : Z)
    (verbose : Z) : outcome MarketServiceAgent :=
  match Director_new market_period reservation_delay offer_delay with
  | Return d => Return (mkAgent INITIAL_WAIT None verbose d [])
  | Raise e => Raise e
  end.

(** [utils.load_config(config_path)] under [except StandardError]: a
    failure of a class derived from [StandardError] gives the empty
    configuration; any other exception goes on to the caller. *)
Definition load_config_or_empty (config_path : string)
  : outcome (gmap string value) :=
  match load_config config_path with
  | Return c => Return c
  | Raise e => if is_StandardError e then Return ∅ else Raise e
  end.

Context `{Builtins}.

(** [market_service_agent(config_path)]: an absent key takes its default;
    the four values are converted by [int], in this order, before the agent
    is built. *)
Definition market_service_agent (config_path : string)
  : outcome MarketServiceAgent :=
  match load_config_or_empty config_path with
  | Raise e => Raise e
  | Return config =>
      match int (default (VInt 300) (config !! "market_period")) with
      | Raise e => Raise e
      | Return market_period =>
          match int (default (VInt 0) (config !! "reservation_delay")) with
          | Raise e => Raise e
          | Return reservation_delay =>
              match int (default (VInt 120) (config !! "offer_delay")) with
              | Raise e => Raise e
              | Return offer_delay =>
                  match int (default (VBool true)
                               (config !! "verbose_logging")) with
                  | Raise e => Raise e
                  | Return verbose =>
                      __init__ market_period reservation_delay offer_delay
                        verbose
                  end
              end
          end
      end
  end.

(** [Director.start(sender)], which is handed the agent itself: whatever it
    does to the agent, and however it ends, is its own. *)
Context (Director_start : Director → Py unit).

(** [onstart]: the registry is created, then the director is started on the
    agent. *)
Definition onstart : Py unit := λ a,
  let a' := set_market_list (Some (MarketList_new (verbose_logging a))) a in
  Director_start (director a') a'.

Definition send_collect_reservations_request (timestamp : Timestamp) : Py unit :=
  start_reservations ;;;
  registry_call call_send_market_failure_errors "send_market_failure_errors"
    ml_send_market_failure_errors ;;;
  registry_call call_clear_reservations "clear_reservations"
    ml_clear_reservations ;;;
  publish "pubsub" MARKET_RESERVE (MsgTimestamp (format_timestamp timestamp)).

Definition has_any_markets : Py bool :=
  unformed_markets <- registry_query "unformed_market_list"
                        ml_unformed_market_list ;;
  count <- registry_query "market_count" ml_market_count ;;
  ret (Z.of_nat (List.length unformed_markets) <? count).

Definition begin_collect_offers (timestamp : Timestamp) : Py unit :=
  start_offers_has_markets ;;;
  registry_call call_collect_offers "collect_offers" ml_collect_offers ;;;
  unformed_markets <- registry_query "unformed_market_list"
                        ml_unformed_market_list ;;
  publish "pubsub" MARKET_BID
    (MsgOffers (format_timestamp timestamp) unformed_markets).

Definition send_collect_offers_request (timestamp : Timestamp) : Py unit :=
  any <- has_any_markets ;;
  if any then begin_collect_offers timestamp
  else start_offers_no_markets ;;; ret tt.

Definition reservation_accepted_fmt : string :=
  "Reservation on Market: {} {} made by {} was accepted.".
Definition reservation_rejected_fmt : string :=
  "Reservation on Market: {} {} made by {} was rejected.".
Definition offer_accepted_fmt : string :=
  "Offer on Market: {} {} made by {} was accepted.".
Definition offer_rejected_fmt : string :=
  "Offer on Market: {} {} made by {} was rejected.".

Definition not_accepting_reservations : string :=
  "Error: Market service not accepting reservations at this time.".
Definition not_accepting_offers : string :=
  "Error: Market service not accepting offers at this time.".

Definition accept_reservation (buyer_seller identity market_name : string)
  : Py unit :=
  emit (log_info reservation_accepted_fmt [market_name; buyer_seller; identity]) ;;;
  let participant := mkMarketParticipant buyer_seller identity in
  registry_call (call_make_reservation market_name participant)
    "make_reservation" (ml_make_reservation market_name participant).

Definition reject_reservation (buyer_seller identity market_name : string)
  : Py unit :=
  emit (log_info reservation_rejected_fmt [market_name; buyer_seller; identity]) ;;;
  raise (RuntimeError not_accepting_reservations).

(** [make_reservation]; [peer] is [self.vip.rpc.context.vip_message.peer],
    the caller as the transport knows it. *)
Definition make_reservation (peer : string) (market_name buyer_seller : string)
  : Py unit := λ a,
  let identity := peer in
  if bool_decide (state a = COLLECT_RESERVATIONS)
  then accept_reservation buyer_seller identity market_name a
  else reject_reservation buyer_seller identity market_name a.

Definition accept_offer (buyer_seller identity market_name : string)
    (offer : Offer) : Py unit :=
  emit (log_info offer_accepted_fmt [market_name; buyer_seller; identity]) ;;;
  let participant := mkMarketParticipant buyer_seller identity in
  curve <- (λ a, (fromTupples offer, a)) ;;
  registry_call (call_make_offer market_name participant curve)
    "make_offer" (ml_make_offer market_name participant curve).

Definition reject_offer (buyer_seller identity market_name : string)
    (offer : Offer) : Py unit :=
  emit (log_info offer_rejected_fmt [market_name; buyer_seller; identity]) ;;;
  raise (RuntimeError not_accepting_offers).

Definition make_offer (peer : string) (market_name buyer_seller : string)
    (offer : Offer) : Py unit := λ a,
  let identity := peer in
  if bool_decide (state a = COLLECT_OFFERS)
  then accept_offer buyer_seller identity market_name offer a
  else reject_offer buyer_seller identity market_name offer a.

(** The calls made by a method: what it appended to [calls]. *)
Definition new_calls (a a' : MarketServiceAgent) : list Call :=
  drop (List.length (calls a)) (calls a').

(** The phases seen after each call of a sequence of trigger calls, each
    call being made on the agent as the previous one left it (a caller that
    catches the exception of one call goes on with the next). *)
Fixpoint phases_observed (names : list string) (a : MarketServiceAgent)
  : list string :=
  match names with
  | [] => []
  | name :: names' =>
      let a' := snd (fire name a) in
      state a' :: phases_observed names' a'
  end.

(** One round of the timer: the reservation window is opened at the first
    timestamp and the offer window at the second; and a run of such
    rounds. *)
Definition market_cycle (window : Timestamp * Timestamp) : Py unit :=
  send_collect_reservations_request (fst window) ;;;
  send_collect_offers_request (snd window).

Fixpoint market_cycles (windows : list (Timestamp * Timestamp)) : Py unit :=
  match windows with
  | [] => ret tt
  | window :: windows' => market_cycle window ;;; market_cycles windows'
  end.

End Agent.

Arguments load_config_or_empty {_} config_path.
Arguments market_service_agent {_ _ _ _ _} config_path.

(** ** A platform to run the agent on *)

(** The three durations of a timer. *)
Record Periods : Type := mkPeriods {
  market_period : Z;
  reservation_delay : Z;
  offer_delay : Z
}.

(** Modelled from the spec: the [Director] class is defined in
    [market_service.director], not here.  The specification describes the
    timer by its three configured durations and has the constraint
    [offerDelay < marketPeriod] enforced at startup, a configuration with
    [offerDelay ≥ marketPeriod] being a [SchedulerMisconfiguration] on which
    the process refuses to start.  This director keeps the three durations
    and is refused with that failure when the offer delay is not below the
    market period. *)
Definition periods_director : DirectorOps :=
  {| Director := Periods;
     Director_new := λ mp rd od,
       if od <? mp then Return (mkPeriods mp rd od)
       else Raise SchedulerMisconfiguration |}.

(** A reader of plain decimal literals, digits with an optional minus sign
    before them, for the strings of the sample files. *)
Fixpoint digits_value (acc : Z) (s : string) : option Z :=
  match s with
  | EmptyString => Some acc
  | String c s' =>
      let n := Z.of_nat (Ascii.nat_of_ascii c) in
      if (48 <=? n) && (n <=? 57)
      then digits_value (10 * acc + (n - 48)) s'
      else None
  end.

Definition decimal_literal (s : string) : option Z :=
  match s with
  | EmptyString => None
  | String "-"%char EmptyString => None
  | String "-"%char s' => Z.opp <$> digits_value 0 s'
  | _ => digits_value 0 s
  end.

Definition decimal_builtins : Builtins :=
  {| int_of_str := decimal_literal |}.

(** A platform whose configuration files are the entries of [files];
    timestamps are seconds and are formatted in decimal. *)
Definition files_platform (files : gmap string (gmap string value)) : Platform :=
  {| Timestamp := Z;
     format_timestamp := λ t, pretty t;
     MARKET_RESERVE := "market/reserve";
     MARKET_BID := "market/bid";
     load_config := λ path,
       match files !! path with
       | Some c => Return c
       | None => Raise (OtherError "IOError" path)
       end |}.

(** The values of a raw offer as they arrive in a remote call. *)
Inductive Raw : Type :=
| RawNum (z : Z)
| RawStr (s : string).

Definition parse_point (p : Raw * Raw) : option (Z * Z) :=
  match p with
  | (RawNum x, RawNum y) => Some (x, y)
  | _ => None
  end.

(** Modelled from the spec: the curve factory is not part of this module; a
    raw curve is a sequence of (price, quantity) pairs and parsing fails on
    invalid input.  Here a pair is valid when both components are numbers. *)
Definition tuple_curves : Curves :=
  {| Offer := list (Raw * Raw);
     PolyLine := list (Z * Z);
     parse_tupples := mapM parse_point |}.

(** Modelled from the spec: the registry ([MarketList]) is not part of this
    module.  It owns the named markets, tracks reservations and offers, and
    reports a market as unformed when fewer than two distinct participant
    roles are reserved in it. *)
Module Registry.

Record t : Type := mk {
  markets : gmap string (list MarketParticipant);
  offers : list (string * MarketParticipant * list (Z * Z))
}.

Definition roles (ps : list MarketParticipant) : list string :=
  remove_dups (buyer_seller <$> ps).

Definition has_market_formed (ps : list MarketParticipant) : bool :=
  bool_decide (2 ≤ List.length (roles ps))%nat.

Definition unformed_market_list (r : t) : list string :=
  fst <$> List.filter (λ m, negb (has_market_formed (snd m)))
            (map_to_list (markets r)).

Definition market_count (r : t) : Z := Z.of_nat (size (markets r)).

Definition make_reservation (name : string) (p : MarketParticipant) (r : t) : t :=
  mk (<[name := (default [] (markets r !! name) ++ [p])%list]> (markets r))
    (offers r).

Definition make_offer (name : string) (p : MarketParticipant)
    (curve : list (Z * Z)) (r : t) : t :=
  mk (markets r) (offers r ++ [(name, p, curve)])%list.

Definition clear_reservations (r : t) : t := mk ∅ (offers r).

Definition ops : @MarketListOps tuple_curves :=
  {| MarketList := t;
     MarketList_new := λ _, mk ∅ [];
     ml_send_market_failure_errors := λ r, (Return tt, r);
     ml_clear_reservations := λ r, (Return tt, clear_reservations r);
     ml_collect_offers := λ r, (Return tt, r);
     ml_make_reservation := λ name p r, (Return tt, make_reservation name p r);
     ml_make_offer := λ name p (c : @PolyLine tuple_curves) r,
       (Return tt, make_offer name p c r);
     ml_unformed_market_list := unformed_market_list;
     ml_market_count := market_count |}.

End Registry.

(** Configuration files: the sample of the module's documentation; one
    whose offer delay is longer than its market period; one that gives a
    duration as a string and one as a float (120.25); and one whose market
    period is no number. *)
Definition sample_files : gmap string (gmap string value) :=
  {[ "config" := {[ "market_period" := VInt 300;
                    "reservation_delay" := VInt 0;
                    "offer_delay" := VInt 120;
                    "verbose_logging" := VBool true ]};
     "late_offers" := {[ "market_period" := VInt 100;
                         "offer_delay" := VInt 200 ]};
     "written_out" := {[ "market_period" := VStr "600";
                         "offer_delay" := VFloat 481 (-2) ]};
     "no_number" := {[ "market_period" := VStr "five minutes" ]} ]}.

Definition sample_platform : Platform := files_platform sample_files.

(** The agent of the sample configuration in phase [st] with registry [r]. *)
Definition sample_agent (st : string) (r : Registry.t)
  : @MarketServiceAgent tuple_curves Registry.ops periods_director :=
  @mkAgent tuple_curves Registry.ops periods_director
    st (Some r) 1 (mkPeriods 300 0 120) [].

(** A registry in which market M1 has a buyer and a seller and market M2 has
    a buyer only. *)
Definition two_markets : Registry.t :=
  Registry.make_reservation "M2" (mkMarketParticipant "buyer" "agent-c")
    (Registry.make_reservation "M1" (mkMarketParticipant "seller" "agent-b")
       (Registry.make_reservation "M1" (mkMarketParticipant "buyer" "agent-a")
          (Registry.mk ∅ []))).

(** A registry in which market M1 has a buyer only. *)
Definition one_unformed : Registry.t :=
  Registry.make_reservation "M1" (mkMarketParticipant "buyer" "agent-a")
    (Registry.mk ∅ []).

(** ** Properties of the agent, for any platform, registry and director *)

Section Properties.

Context `{Platform} `{MarketListOps} `{DirectorOps}.

Implicit Types (a : MarketServiceAgent) (ml : MarketList).

Lemma new_calls_record a c : new_calls a (record_call c a) = [c].
Proof.
  unfold new_calls, record_call; simpl.
  by rewrite drop_app_length.
Qed.

Lemma new_calls_app a a' (cs : list Call) :
  calls a' = (calls a ++ cs)%list → new_calls a a' = cs.
Proof. unfold new_calls. intros ->. by rewrite drop_app_length. Qed.

(** A method of the registry never touches the agent's [state], and records
    at most its own call. *)
Lemma registry_call_state c meth f a :
  state (snd (registry_call c meth f a)) = state a.
Proof.
  unfold registry_call. destruct (market_list a) as [ml|]; [|done].
  by destruct (f ml).
Qed.

Lemma registry_call_some c meth f a ml :
  market_list a = Some ml →
  registry_call c meth f a =
    (fst (f ml),
     mkAgent (state a) (Some (snd (f ml))) (verbose_logging a) (director a)
       (calls a ++ [c])).
Proof.
  intros Hml. unfold registry_call. rewrite Hml. by destruct (f ml).
Qed.

(** The two records of an offer's admission are told apart by their last
    words. *)
Lemma offer_formats_differ : offer_accepted_fmt ≠ offer_rejected_fmt.
Proof. discriminate. Qed.

(** C10: a call of [make_reservation] or of [make_offer] leaves the phase of
    the state machine as it found it, in every phase, whether the request is
    accepted or rejected, and whatever the registry and the curve factory
    answer: the remote operations fire no trigger. *)
Theorem admission_preserves_state :
  ∀ a (peer market_name role : string) (offer : Offer),
    state (snd (make_reservation peer market_name role a)) = state a
    ∧ state (snd (make_offer peer market_name role offer a)) = state a.
Proof.
  intros a peer market_name role offer. split.
  - unfold make_reservation. case_bool_decide as Hst.
    + unfold accept_reservation, bind, emit. simpl.
      by rewrite registry_call_state.
    + done.
  - unfold make_offer. case_bool_decide as Hst.
    + unfold accept_offer, bind, emit, fromTupples. simpl.
      destruct (parse_tupples offer) as [curve|]; [|done].
      by rewrite registry_call_state.
    + done.
Qed.

(** C1: [make_reservation] accepts exactly in the phase
    [service_collect_reservations].  With the registry in place, the
    participant built from the caller's role and identity reaches the
    registry's [make_reservation] for the named market if and only if the
    phase is [service_collect_reservations], and then the call ends as the
    registry's method ends; in every other phase nothing reaches the registry
    and the caller gets the [RuntimeError] that the service is not accepting
    reservations at this time. *)
Theorem make_reservation_admission :
  ∀ a ml (peer market_name role : string),
    market_list a = Some ml →
    let participant := mkMarketParticipant role peer in
    let result := make_reservation peer market_name role a in
    (state a = COLLECT_RESERVATIONS ↔
       call_make_reservation market_name participant ∈ new_calls a (snd result))
    ∧ (state a = COLLECT_RESERVATIONS →
       result =
         (fst (ml_make_reservation market_name participant ml),
          mkAgent (state a)
            (Some (snd (ml_make_reservation market_name participant ml)))
            (verbose_logging a) (director a)
            (calls a ++
               [log_info reservation_accepted_fmt [market_name; role; peer];
                call_make_reservation market_name participant])))
    ∧ (state a ≠ COLLECT_RESERVATIONS →
       result =
         (Raise (RuntimeError
                   "Error: Market service not accepting reservations at this time."),
          record_call
            (log_info reservation_rejected_fmt [market_name; role; peer]) a)).
Proof.
  intros a ml peer market_name role Hml participant result.
  assert (Hacc : state a = COLLECT_RESERVATIONS →
    result =
      (fst (ml_make_reservation market_name participant ml),
       mkAgent (state a)
         (Some (snd (ml_make_reservation market_name participant ml)))
         (verbose_logging a) (director a)
         (calls a ++
            [log_info reservation_accepted_fmt [market_name; role; peer];
             call_make_reservation market_name participant]))).
  { intros Hst. subst result. unfold make_reservation.
    rewrite bool_decide_eq_true_2 by done.
    unfold accept_reservation, bind, emit.
    rewrite (registry_call_some _ _ _ _ ml) by done. simpl.
    by rewrite <- app_assoc. }
  assert (Hrej : state a ≠ COLLECT_RESERVATIONS →
    result =
      (Raise (RuntimeError
                "Error: Market service not accepting reservations at this time."),
       record_call
         (log_info reservation_rejected_fmt [market_name; role; peer]) a)).
  { intros Hst. subst result. unfold make_reservation.
    by rewrite bool_decide_eq_false_2. }
  split; [|by split].
  destruct (decide (state a = COLLECT_RESERVATIONS)) as [Hst|Hst].
  - rewrite (Hacc Hst). simpl. split; [intros _|done].
    erewrite new_calls_app by reflexivity. set_solver.
  - rewrite (Hrej Hst). simpl. rewrite new_calls_record. split; [done|].
    intros Hin. apply list_elem_of_singleton in Hin. discriminate.
Qed.

(** C2: [make_offer] accepts exactly in the phase [service_collect_offers]:
    the record that the offer was accepted is written if and only if the phase
    is [service_collect_offers].  In that phase the raw curve is parsed and the
    curve goes with the participant to the registry's [make_offer], the call
    ending as the registry's method ends; an offer reaches the registry only
    in that phase and only with the curve parsed from it.  In every other
    phase the caller gets the [RuntimeError] that the service is not
    accepting offers at this time. *)
Theorem make_offer_admission :
  ∀ a ml (peer market_name role : string) (offer : Offer),
    market_list a = Some ml →
    let participant := mkMarketParticipant role peer in
    let result := make_offer peer market_name role offer a in
    (state a = COLLECT_OFFERS ↔
       log_info offer_accepted_fmt [market_name; role; peer]
         ∈ new_calls a (snd result))
    ∧ (∀ curve,
         call_make_offer market_name participant curve ∈ new_calls a (snd result)
         ↔ state a = COLLECT_OFFERS ∧ parse_tupples offer = Some curve)
    ∧ (state a = COLLECT_OFFERS →
       ∀ curve, parse_tupples offer = Some curve →
         result =
           (fst (ml_make_offer market_name participant curve ml),
            mkAgent (state a)
              (Some (snd (ml_make_offer market_name participant curve ml)))
              (verbose_logging a) (director a)
              (calls a ++
                 [log_info offer_accepted_fmt [market_name; role; peer];
                  call_make_offer market_name participant curve])))
    ∧ (state a ≠ COLLECT_OFFERS →
       result =
         (Raise (RuntimeError
                   "Error: Market service not accepting offers at this time."),
          record_call (log_info offer_rejected_fmt [market_name; role; peer]) a)).
Proof.
  intros a ml peer market_name role offer Hml participant result.
  assert (Hacc : state a = COLLECT_OFFERS →
    ∀ curve, parse_tupples offer = Some curve →
      result =
        (fst (ml_make_offer market_name participant curve ml),
         mkAgent (state a)
           (Some (snd (ml_make_offer market_name participant curve ml)))
           (verbose_logging a) (director a)
           (calls a ++
              [log_info offer_accepted_fmt [market_name; role; peer];
               call_make_offer market_name participant curve]))).
  { intros Hst curve Hparse. subst result. unfold make_offer.
    rewrite bool_decide_eq_true_2 by done.
    unfold accept_offer, bind, emit, fromTupples. rewrite Hparse.
    rewrite (registry_call_some _ _ _ _ ml) by done. simpl.
    by rewrite <- app_assoc. }
  assert (Hbad : state a = COLLECT_OFFERS → parse_tupples offer = None →
    result =
      (Raise MalformedCurve,
       record_call (log_info offer_accepted_fmt [market_name; role; peer]) a)).
  { intros Hst Hparse. subst result. unfold make_offer.
    rewrite bool_decide_eq_true_2 by done.
    unfold accept_offer, bind, emit, fromTupples. by rewrite Hparse. }
  assert (Hrej : state a ≠ COLLECT_OFFERS →
    result =
      (Raise (RuntimeError
                "Error: Market service not accepting offers at this time."),
       record_call (log_info offer_rejected_fmt [market_name; role; peer]) a)).
  { intros Hst. subst result. unfold make_offer.
    by rewrite bool_decide_eq_false_2. }
  split; [|split; [|by split]].
  - destruct (decide (state a = COLLECT_OFFERS)) as [Hst|Hst].
    + split; [intros _|done].
      destruct (parse_tupples offer) as [curve|] eqn:Hparse.
      * rewrite (Hacc Hst curve eq_refl). simpl.
        erewrite new_calls_app by reflexivity. set_solver.
      * rewrite (Hbad Hst eq_refl). simpl. rewrite new_calls_record.
        set_solver.
    + rewrite (Hrej Hst). simpl. rewrite new_calls_record. split; [done|].
      intros Hin. apply list_elem_of_singleton in Hin.
      injection Hin as Hfmt. by destruct offer_formats_differ.
  - intros curve.
    destruct (decide (state a = COLLECT_OFFERS)) as [Hst|Hst].
    + destruct (parse_tupples offer) as [curve'|] eqn:Hparse.
      * rewrite (Hacc Hst curve' eq_refl). simpl.
        erewrite new_calls_app by reflexivity. split.
        -- intros Hin. split; [done|].
           apply elem_of_cons in Hin as [Hin|Hin]; [discriminate|].
           apply list_elem_of_singleton in Hin. by injection Hin as ->.
        -- intros [_ [= ->]]. set_solver.
      * rewrite (Hbad Hst eq_refl). simpl. rewrite new_calls_record. split.
        -- intros Hin. apply list_elem_of_singleton in Hin. discriminate.
        -- intros [_ [=]].
    + rewrite (Hrej Hst). simpl. rewrite new_calls_record. split.
      * intros Hin. apply list_elem_of_singleton in Hin. discriminate.
      * intros [? _]. done.
Qed.

(** C9: an offer that arrives in the phase [service_collect_offers] with a raw
    curve the factory cannot parse ends in the factory's own error, which is
    not the error of a rejection by phase.  The curve is parsed before the
    registry is called: the registry is left as it was, no [make_offer] of
    the registry is called, nothing is published, and the phase is still
    [service_collect_offers]. *)
Theorem malformed_offer_stores_nothing :
  ∀ a (peer market_name role : string) (offer : Offer),
    state a = COLLECT_OFFERS →
    parse_tupples offer = None →
    let result := make_offer peer market_name role offer a in
    fst result = Raise MalformedCurve
    ∧ fst result ≠
        Raise (RuntimeError
                 "Error: Market service not accepting offers at this time.")
    ∧ market_list (snd result) = market_list a
    ∧ new_calls a (snd result) =
        [log_info offer_accepted_fmt [market_name; role; peer]]
    ∧ (∀ name p curve, call_make_offer name p curve ∉ new_calls a (snd result))
    ∧ (∀ p topic message, call_publish p topic message ∉ new_calls a (snd result))
    ∧ state (snd result) = COLLECT_OFFERS.
Proof.
  intros a peer market_name role offer Hst Hparse result.
  assert (Hres : result =
    (Raise MalformedCurve,
     record_call (log_info offer_accepted_fmt [market_name; role; peer]) a)).
  { subst result. unfold make_offer. rewrite bool_decide_eq_true_2 by done.
    unfold accept_offer, bind, emit, fromTupples. by rewrite Hparse. }
  rewrite Hres. simpl. rewrite new_calls_record.
  repeat split; try done.
  - intros name p curve Hin. apply list_elem_of_singleton in Hin. discriminate.
  - intros p topic message Hin. apply list_elem_of_singleton in Hin.
    discriminate.
Qed.

Lemma has_any_markets_some a ml :
  market_list a = Some ml →
  has_any_markets a =
    (Return (Z.of_nat (List.length (ml_unformed_market_list ml))
             <? ml_market_count ml), a).
Proof.
  intros Hml. unfold has_any_markets, bind, registry_query, ret.
  rewrite Hml. simpl. by rewrite Hml.
Qed.

(** C5: [has_any_markets] is the comparison of two counts: it returns [True]
    if and only if the list of unformed markets that the registry reports is
    strictly shorter than the registry's market count.  The registry is asked
    for nothing else, and the agent is left as it was. *)
Theorem has_any_markets_count_rule :
  ∀ a ml,
    market_list a = Some ml →
    has_any_markets a =
      (Return (Z.of_nat (List.length (ml_unformed_market_list ml))
               <? ml_market_count ml), a)
    ∧ (fst (has_any_markets a) = Return true ↔
       Z.of_nat (List.length (ml_unformed_market_list ml)) < ml_market_count ml).
Proof.
  intros a ml Hml. pose proof (has_any_markets_some a ml Hml) as Heq.
  split; [done|]. rewrite Heq. simpl. split.
  - intros [= Hlt]. by apply Z.ltb_lt.
  - intros Hlt. f_equal. by apply Z.ltb_lt.
Qed.

(** *** The state machine *)

Lemma events_transitions :
  Machine.events transitions =
    ["start_offers_no_markets"; "start_offers_has_markets"; "start_reservations"].
Proof. reflexivity. Qed.

Lemma fire_state name a : state (snd (fire name a)) = next_phase name (state a).
Proof.
  unfold fire, next_phase.
  by destruct (Machine.trigger_event transitions name (state a)).
Qed.

Lemma next_phase_declared name st :
  name ∈ Machine.events transitions → st ∈ states →
  next_phase name st ∈ states
  ∧ (st ≠ INITIAL_WAIT → next_phase name st ≠ INITIAL_WAIT).
Proof.
  rewrite events_transitions. unfold states. intros Hn Hs.
  repeat (apply elem_of_cons in Hn as [->|Hn]);
    try (by apply elem_of_nil in Hn);
    repeat (apply elem_of_cons in Hs as [->|Hs]);
    try (by apply elem_of_nil in Hs);
    (split; [vm_compute; set_solver | vm_compute; congruence]).
Qed.

(** C3: a trigger fired from a phase in which the transition table has no
    edge for it leaves the agent, and so its phase, exactly as it was, and the
    caller is told by an exception: the call raises [MachineError]. *)
Theorem unmatched_trigger_raises :
  ∀ a (name : string),
    name ∈ Machine.events transitions →
    Machine.candidates transitions name (state a) = [] →
    fire name a =
      (Raise (MachineError
                ("Can't trigger event " +:+ name +:+ " from state "
                 +:+ state a +:+ "!")), a).
Proof.
  intros a name Hev Hnone. unfold fire, Machine.trigger_event.
  rewrite bool_decide_eq_true_2 by done. by rewrite Hnone.
Qed.

Lemma never_reentered_after (s : string) (seen : list string) :
  Forall (λ s', s' ≠ INITIAL_WAIT) seen → never_reentered (s :: seen).
Proof.
  intros Hall i j s' Hij Hi Hs' Hj. destruct j as [|j].
  - assert (i = 0%nat) as -> by lia. simpl in *. congruence.
  - simpl in Hj. rewrite Forall_lookup in Hall. by apply (Hall j INITIAL_WAIT).
Qed.

Lemma never_reentered_initial (seen : list string) :
  never_reentered seen → never_reentered (INITIAL_WAIT :: seen).
Proof.
  intros Hseen i j s Hij Hi Hs Hj. destruct i as [|i].
  - simpl in Hi. congruence.
  - destruct j as [|j]; [lia|]. simpl in *.
    apply (Hseen i j s); [lia|done..].
Qed.

Lemma phases_observed_left (names : list string) a :
  Forall (λ n, n ∈ Machine.events transitions) names →
  state a ∈ states → state a ≠ INITIAL_WAIT →
  Forall (λ s, s ∈ states ∧ s ≠ INITIAL_WAIT) (phases_observed names a).
Proof.
  intros Hnames. revert a.
  induction Hnames as [|name names Hname _ IH]; intros a Hin Hne; simpl.
  - constructor.
  - destruct (next_phase_declared name (state a) Hname Hin) as [Hin' Hne'].
    rewrite <- fire_state in Hin', Hne'. constructor; [by auto|].
    apply IH; auto.
Qed.

(** C6: whatever triggers of the table are fired one after the other on an
    agent that starts in [service_initial_wait], every phase seen is one of
    the four declared phases, and once a phase other than
    [service_initial_wait] has been seen, [service_initial_wait] is not seen
    again. *)
Theorem phases_stay_declared :
  ∀ (names : list string) a,
    state a = INITIAL_WAIT →
    Forall (λ n, n ∈ Machine.events transitions) names →
    let seen := state a :: phases_observed names a in
    Forall (λ s, s ∈ states) seen ∧ never_reentered seen.
Proof.
  intros names a Hinit Hnames. revert a Hinit.
  induction Hnames as [|name names Hname Hnames IH]; intros a Hinit seen.
  - subst seen. simpl. rewrite Hinit. split.
    + repeat constructor.
    + apply never_reentered_after. constructor.
  - subst seen. simpl. rewrite Hinit.
    assert (Hin : state a ∈ states) by (rewrite Hinit; repeat constructor).
    destruct (next_phase_declared name (state a) Hname Hin) as [Hin' _].
    rewrite <- fire_state in Hin'.
    destruct (decide (state (snd (fire name a)) = INITIAL_WAIT)) as [Hst|Hst].
    + destruct (IH (snd (fire name a)) Hst) as [Hall Hnever]. split.
      * constructor; [by rewrite <- Hinit|done].
      * by apply never_reentered_initial.
    + pose proof (phases_observed_left names (snd (fire name a)) Hnames Hin' Hst)
        as Hleft.
      split.
      * constructor; [by rewrite <- Hinit|].
        constructor; [done|].
        eapply Forall_impl; [exact Hleft|]. by intros s [? _].
      * apply never_reentered_after. constructor; [done|].
        eapply Forall_impl; [exact Hleft|]. by intros s [_ ?].
Qed.

(** *** The two timer callbacks *)

Lemma start_reservations_returns a :
  state a ∈ [INITIAL_WAIT; COLLECT_OFFERS; NO_MARKETS] →
  start_reservations a = (Return true, set_state COLLECT_RESERVATIONS a).
Proof.
  intros Hst. unfold start_reservations, fire.
  repeat (apply elem_of_cons in Hst as [->|Hst]);
    try (by apply elem_of_nil in Hst); reflexivity.
Qed.

(** C7: [send_collect_reservations_request] called in one of the phases
    [service_initial_wait], [service_collect_offers] and
    [service_has_no_markets] first fires [start_reservations], which succeeds
    and makes the phase [service_collect_reservations]; then it tells the
    registry to send the market failure errors, then to clear the
    reservations, and last it publishes the formatted timestamp on the
    reservation topic, each step being reached when the one before returned.
    Called in [service_collect_reservations] the trigger has no edge: the
    call raises [MachineError] and nothing else is done. *)
Theorem reservations_request_steps :
  ∀ a ml (timestamp : Timestamp),
    market_list a = Some ml →
    (state a ∈ [INITIAL_WAIT; COLLECT_OFFERS; NO_MARKETS] →
     let failures := ml_send_market_failure_errors ml in
     let cleared := ml_clear_reservations (snd failures) in
     let after ml' (made : list Call) :=
       mkAgent COLLECT_RESERVATIONS (Some ml') (verbose_logging a) (director a)
         (calls a ++ made) in
     send_collect_reservations_request timestamp a =
       match fst failures with
       | Raise e =>
           (Raise e, after (snd failures) [call_send_market_failure_errors])
       | Return _ =>
           match fst cleared with
           | Raise e =>
               (Raise e,
                after (snd cleared)
                  [call_send_market_failure_errors; call_clear_reservations])
           | Return _ =>
               (Return tt,
                after (snd cleared)
                  [call_send_market_failure_errors; call_clear_reservations;
                   call_publish "pubsub" MARKET_RESERVE
                     (MsgTimestamp (format_timestamp timestamp))])
           end
       end)
    ∧ (state a = COLLECT_RESERVATIONS →
       send_collect_reservations_request timestamp a =
         (Raise (MachineError
                   "Can't trigger event start_reservations from state service_collect_reservations!"),
          a)).
Proof.
  intros a ml timestamp Hml. split.
  - intros Hst failures cleared after.
    unfold send_collect_reservations_request, bind.
    rewrite (start_reservations_returns a Hst).
    rewrite (registry_call_some _ _ _ _ ml) by done. simpl.
    fold failures. destruct failures as [[[]|e] ml1] eqn:Hf; simpl; [|done].
    rewrite (registry_call_some _ _ _ _ ml1) by done. simpl.
    subst cleared. simpl.
    destruct (ml_clear_reservations ml1) as [[[]|e] ml2] eqn:Hc; simpl.
    + unfold publish, emit, record_call, after. simpl.
      by rewrite <- !app_assoc.
    + unfold after. by rewrite <- !app_assoc.
  - intros Hst. unfold send_collect_reservations_request, bind.
    unfold start_reservations, fire. by rewrite Hst.
Qed.

End Properties.

(** ** Further properties of the agent *)

Section Further.

Context `{Platform} `{MarketListOps} `{DirectorOps}.

Implicit Types (a : MarketServiceAgent) (ml : MarketList).

(** *** The transition table *)

Lemma candidates_elem (name st : string) (t : Transition) :
  t ∈ Machine.candidates transitions name st
  ↔ t ∈ transitions ∧ trigger t = name ∧ source t = st.
Proof.
  unfold Machine.candidates, Machine.matches.
  rewrite list_elem_of_In, filter_In, <- list_elem_of_In.
  rewrite andb_true_iff, !bool_decide_eq_true. tauto.
Qed.

Lemma events_elem (name : string) :
  name ∈ Machine.events transitions
  ↔ ∃ t, t ∈ transitions ∧ trigger t = name.
Proof.
  unfold Machine.events. rewrite elem_of_remove_dups, list_elem_of_fmap.
  split; intros (t & Ht1 & Ht2); exists t; by split.
Qed.

(** No two entries of the table have the same trigger and the same source. *)
Lemma edges_unique (t t' : Transition) :
  t ∈ transitions → t' ∈ transitions →
  trigger t = trigger t' → source t = source t' → t = t'.
Proof.
  unfold transitions. intros Ht Ht'.
  repeat (apply elem_of_cons in Ht as [->|Ht]);
    try (by apply elem_of_nil in Ht);
    repeat (apply elem_of_cons in Ht' as [->|Ht']);
    try (by apply elem_of_nil in Ht');
    simpl; intros Htr Hsrc; first [reflexivity | discriminate].
Qed.

Lemma start_reservations_dest (t : Transition) :
  t ∈ transitions → trigger t = "start_reservations" →
  dest t = COLLECT_RESERVATIONS.
Proof.
  unfold transitions. intros Ht.
  repeat (apply elem_of_cons in Ht as [->|Ht]);
    try (by apply elem_of_nil in Ht);
    simpl; intros Htr; first [reflexivity | discriminate].
Qed.

Lemma start_offers_source (t : Transition) :
  t ∈ transitions → trigger t ≠ "start_reservations" →
  source t = COLLECT_RESERVATIONS
  ∧ (dest t = COLLECT_OFFERS ∨ dest t = NO_MARKETS).
Proof.
  unfold transitions. intros Ht.
  repeat (apply elem_of_cons in Ht as [->|Ht]);
    try (by apply elem_of_nil in Ht);
    simpl; intros Htr; first [done | by split; [|right] | by split; [|left]].
Qed.

Lemma fire_edge a (name : string) (t : Transition) :
  t ∈ transitions → trigger t = name → source t = state a →
  fire name a = (Return true, set_state (dest t) a).
Proof.
  intros Ht Htr Hsrc. unfold fire, Machine.trigger_event.
  rewrite bool_decide_eq_true_2 by (apply events_elem; eauto).
  destruct (Machine.candidates transitions name (state a)) as [|t' ts] eqn:Hc.
  - assert (Hin : t ∈ Machine.candidates transitions name (state a))
      by (by apply candidates_elem).
    rewrite Hc in Hin. by apply elem_of_nil in Hin.
  - assert (Hin : t' ∈ Machine.candidates transitions name (state a))
      by (rewrite Hc; left).
    apply candidates_elem in Hin as (Ht' & Htr' & Hsrc').
    by rewrite (edges_unique t t' Ht Ht') by congruence.
Qed.

Lemma fire_no_edge a (name : string) :
  name ∈ Machine.events transitions →
  (∀ t, t ∈ transitions → trigger t = name → source t ≠ state a) →
  ∃ e, fire name a = (Raise e, a).
Proof.
  intros Hname Hnone. unfold fire, Machine.trigger_event.
  rewrite bool_decide_eq_true_2 by done.
  destruct (Machine.candidates transitions name (state a)) as [|t' ts] eqn:Hc;
    [by eexists|].
  assert (Hin : t' ∈ Machine.candidates transitions name (state a))
    by (rewrite Hc; left).
  apply candidates_elem in Hin as (Ht' & Htr' & Hsrc').
  by destruct (Hnone t' Ht' Htr').
Qed.

(** X1: a call of one of the triggers of the table returns exactly when the
    table has an edge for that trigger from the current phase; it then
    returns [True] and the phase is the destination of that edge, nothing
    else of the agent being changed.  When there is no such edge the call
    raises and the agent is as it was.  Such a call never returns [False]. *)
Theorem fire_returns_iff_edge :
  ∀ a (name : string),
    name ∈ Machine.events transitions →
    (∀ t, t ∈ transitions → trigger t = name → source t = state a →
          fire name a = (Return true, set_state (dest t) a))
    ∧ match fire name a with
      | (Return b, a') =>
          b = true
          ∧ ∃ t, t ∈ transitions ∧ trigger t = name ∧ source t = state a
                 ∧ a' = set_state (dest t) a
      | (Raise e, a') =>
          a' = a
          ∧ ¬ ∃ t, t ∈ transitions ∧ trigger t = name ∧ source t = state a
      end.
Proof.
  intros a name Hname. split; [intros t; apply fire_edge|].
  destruct (decide (Exists (λ t, trigger t = name ∧ source t = state a)
                      transitions)) as [Hex|Hnex].
  - apply Exists_exists in Hex as (t & Ht & Htr & Hsrc).
    rewrite (fire_edge a name t Ht Htr Hsrc). split; [done|]. by exists t.
  - assert (Hnone : ∀ t, t ∈ transitions → trigger t = name →
                         source t ≠ state a).
    { intros t Ht Htr Hsrc. apply Hnex, Exists_exists. by exists t. }
    destruct (fire_no_edge a name Hname Hnone) as [e ->]. split; [done|].
    intros (t & Ht & Htr & Hsrc). by apply (Hnone t).
Qed.

Lemma trigger_event_table (name st : string) :
  st ∈ states → name ∈ Machine.events transitions →
  returned (Machine.trigger_event transitions name st) = true
  ↔ (name = "start_reservations" ↔ st ≠ COLLECT_RESERVATIONS).
Proof.
  rewrite events_transitions. unfold states. intros Hs Hn.
  repeat (apply elem_of_cons in Hn as [->|Hn]);
    try (by apply elem_of_nil in Hn);
    repeat (apply elem_of_cons in Hs as [->|Hs]);
    try (by apply elem_of_nil in Hs);
    compute_done.
Qed.

(** X2: in a declared phase, [start_reservations] succeeds exactly when the
    phase is not [service_collect_reservations], and each of the two offer
    triggers succeeds exactly when it is. *)
Theorem trigger_success_table :
  ∀ a (name : string),
    state a ∈ states →
    name ∈ Machine.events transitions →
    returned (fst (fire name a)) = true
    ↔ (name = "start_reservations" ↔ state a ≠ COLLECT_RESERVATIONS).
Proof.
  intros a name Hs Hn. rewrite <- (trigger_event_table name (state a) Hs Hn).
  unfold fire. by destruct (Machine.trigger_event transitions name (state a)).
Qed.

(** *** The two remote operations *)

Lemma make_reservation_rejects a (peer market_name role : string) :
  state a ≠ COLLECT_RESERVATIONS →
  make_reservation peer market_name role a =
    (Raise (RuntimeError not_accepting_reservations),
     record_call (log_info reservation_rejected_fmt [market_name; role; peer]) a).
Proof.
  intros Hst. unfold make_reservation. by rewrite bool_decide_eq_false_2.
Qed.

Lemma make_offer_rejects a (peer market_name role : string) (offer : Offer) :
  state a ≠ COLLECT_OFFERS →
  make_offer peer market_name role offer a =
    (Raise (RuntimeError not_accepting_offers),
     record_call (log_info offer_rejected_fmt [market_name; role; peer]) a).
Proof.
  intros Hst. unfold make_offer. by rewrite bool_decide_eq_false_2.
Qed.

Lemma make_reservation_accepts a ml (peer market_name role : string) :
  state a = COLLECT_RESERVATIONS → market_list a = Some ml →
  make_reservation peer market_name role a =
    (fst (ml_make_reservation market_name (mkMarketParticipant role peer) ml),
     mkAgent (state a)
       (Some (snd (ml_make_reservation market_name
                     (mkMarketParticipant role peer) ml)))
       (verbose_logging a) (director a)
       (calls a ++
          [log_info reservation_accepted_fmt [market_name; role; peer];
           call_make_reservation market_name (mkMarketParticipant role peer)])).
Proof.
  intros Hst Hml. unfold make_reservation.
  rewrite bool_decide_eq_true_2 by done.
  unfold accept_reservation, bind, emit.
  rewrite (registry_call_some _ _ _ _ ml) by done. simpl.
  by rewrite <- app_assoc.
Qed.

Lemma make_offer_accepts a ml (peer market_name role : string)
    (offer : Offer) (curve : PolyLine) :
  state a = COLLECT_OFFERS → market_list a = Some ml →
  parse_tupples offer = Some curve →
  make_offer peer market_name role offer a =
    (fst (ml_make_offer market_name (mkMarketParticipant role peer) curve ml),
     mkAgent (state a)
       (Some (snd (ml_make_offer market_name
                     (mkMarketParticipant role peer) curve ml)))
       (verbose_logging a) (director a)
       (calls a ++
          [log_info offer_accepted_fmt [market_name; role; peer];
           call_make_offer market_name (mkMarketParticipant role peer) curve])).
Proof.
  intros Hst Hml Hparse. unfold make_offer.
  rewrite bool_decide_eq_true_2 by done.
  unfold accept_offer, bind, emit, fromTupples. rewrite Hparse.
  rewrite (registry_call_some _ _ _ _ ml) by done. simpl.
  by rewrite <- app_assoc.
Qed.

(** X3: no phase admits both kinds of request.  Whatever the agent's phase,
    of a reservation and an offer sent to it at least one is turned away with
    its [RuntimeError]; in any phase other than
    [service_collect_reservations] and [service_collect_offers] both are. *)
Theorem admission_windows_disjoint :
  ∀ a (peer market_name role : string) (offer : Offer),
    let reservation := fst (make_reservation peer market_name role a) in
    let offering := fst (make_offer peer market_name role offer a) in
    let no_reservations :=
      Raise (RuntimeError
               "Error: Market service not accepting reservations at this time.") in
    let no_offers :=
      Raise (RuntimeError
               "Error: Market service not accepting offers at this time.") in
    (reservation = no_reservations ∨ offering = no_offers)
    ∧ (state a ≠ COLLECT_RESERVATIONS → state a ≠ COLLECT_OFFERS →
       reservation = no_reservations ∧ offering = no_offers).
Proof.
  intros a peer market_name role offer. simpl. split.
  - destruct (decide (state a = COLLECT_RESERVATIONS)) as [Hst|Hst].
    + right. rewrite make_offer_rejects; [done|]. by rewrite Hst.
    + left. by rewrite make_reservation_rejects.
  - intros Hr Ho.
    by rewrite make_reservation_rejects, make_offer_rejects.
Qed.

(** X4: of the agent's own calls, a remote operation makes no publication
    on the bus and no call of a registry method other than its own intake
    with its own arguments.  Besides the record of its decision,
    [make_reservation] can only call the registry's [make_reservation] for
    the named market with the caller as participant, and [make_offer] only
    the registry's [make_offer] with the curve parsed from the raw offer.
    What the registry's intake does in turn is the registry's. *)
Theorem admission_calls_only_intake :
  ∀ a (peer market_name role : string) (offer : Offer) (c : Call),
    let participant := mkMarketParticipant role peer in
    (c ∈ new_calls a (snd (make_reservation peer market_name role a)) →
     (∃ fmt, c = log_info fmt [market_name; role; peer])
     ∨ (state a = COLLECT_RESERVATIONS
        ∧ c = call_make_reservation market_name participant))
    ∧ (c ∈ new_calls a (snd (make_offer peer market_name role offer a)) →
       (∃ fmt, c = log_info fmt [market_name; role; peer])
       ∨ (state a = COLLECT_OFFERS
          ∧ ∃ curve, parse_tupples offer = Some curve
                     ∧ c = call_make_offer market_name participant curve)).
Proof.
  intros a peer market_name role offer c participant. split.
  - destruct (decide (state a = COLLECT_RESERVATIONS)) as [Hst|Hst].
    + destruct (market_list a) as [ml|] eqn:Hml.
      * rewrite (make_reservation_accepts a ml) by done. simpl.
        erewrite new_calls_app by reflexivity. intros Hc.
        apply elem_of_cons in Hc as [->|Hc]; [left; by eexists|].
        apply list_elem_of_singleton in Hc as ->. by right.
      * unfold make_reservation. rewrite bool_decide_eq_true_2 by done.
        unfold accept_reservation, bind, emit, registry_call. simpl.
        rewrite Hml. simpl. rewrite new_calls_record. intros Hc.
        apply list_elem_of_singleton in Hc as ->. left. by eexists.
    + rewrite make_reservation_rejects by done. simpl.
      rewrite new_calls_record. intros Hc.
      apply list_elem_of_singleton in Hc as ->. left. by eexists.
  - destruct (decide (state a = COLLECT_OFFERS)) as [Hst|Hst].
    + unfold make_offer. rewrite bool_decide_eq_true_2 by done.
      unfold accept_offer, bind, emit, fromTupples.
      destruct (parse_tupples offer) as [curve|] eqn:Hparse.
      * unfold registry_call. simpl.
        destruct (market_list a) as [ml|] eqn:Hml.
        -- destruct (ml_make_offer market_name
                       (mkMarketParticipant role peer) curve ml)
             as [o ml']. simpl.
           erewrite new_calls_app by (simpl; by rewrite <- app_assoc).
           intros Hc.
           apply elem_of_cons in Hc as [->|Hc]; [left; by eexists|].
           apply list_elem_of_singleton in Hc as ->. right. split; [done|].
           by exists curve.
        -- simpl. rewrite new_calls_record. intros Hc.
           apply list_elem_of_singleton in Hc as ->. left. by eexists.
      * simpl. rewrite new_calls_record. intros Hc.
        apply list_elem_of_singleton in Hc as ->. left. by eexists.
    + rewrite make_offer_rejects by done. simpl.
      rewrite new_calls_record. intros Hc.
      apply list_elem_of_singleton in Hc as ->. left. by eexists.
Qed.

(** *** The two timer callbacks, in any phase *)

Lemma start_reservations_cases a :
  start_reservations a = (Return true, set_state COLLECT_RESERVATIONS a)
  ∨ ∃ e, start_reservations a = (Raise e, a).
Proof.
  unfold start_reservations.
  destruct (decide (Exists (λ t, trigger t = "start_reservations"
                                 ∧ source t = state a) transitions))
    as [Hex|Hnex].
  - left. apply Exists_exists in Hex as (t & Ht & Htr & Hsrc).
    rewrite (fire_edge a _ t Ht Htr Hsrc).
    by rewrite (start_reservations_dest t Ht Htr).
  - right. apply fire_no_edge.
    + rewrite events_transitions. do 2 right. left.
    + intros t Ht Htr Hsrc. apply Hnex, Exists_exists. by exists t.
Qed.

Lemma start_offers_outside_window a (name : string) :
  name ∈ Machine.events transitions →
  name ≠ "start_reservations" → state a ≠ COLLECT_RESERVATIONS →
  ∃ e, fire name a = (Raise e, a).
Proof.
  intros Hev Hname Hst. apply fire_no_edge; [done|]. intros t Ht Htr Hsrc.
  destruct (start_offers_source t Ht) as [Hsource _]; congruence.
Qed.

Lemma reservations_request_after_start a ml (timestamp : Timestamp) :
  start_reservations a = (Return true, set_state COLLECT_RESERVATIONS a) →
  market_list a = Some ml →
  let failures := ml_send_market_failure_errors ml in
  let cleared := ml_clear_reservations (snd failures) in
  let after ml' (made : list Call) :=
    mkAgent COLLECT_RESERVATIONS (Some ml') (verbose_logging a) (director a)
      (calls a ++ made) in
  send_collect_reservations_request timestamp a =
    match fst failures with
    | Raise e => (Raise e, after (snd failures) [call_send_market_failure_errors])
    | Return _ =>
        match fst cleared with
        | Raise e =>
            (Raise e,
             after (snd cleared)
               [call_send_market_failure_errors; call_clear_reservations])
        | Return _ =>
            (Return tt,
             after (snd cleared)
               [call_send_market_failure_errors; call_clear_reservations;
                call_publish "pubsub" MARKET_RESERVE
                  (MsgTimestamp (format_timestamp timestamp))])
        end
    end.
Proof.
  intros Hstart Hml failures cleared after.
  unfold send_collect_reservations_request, bind. rewrite Hstart.
  rewrite (registry_call_some _ _ _ _ ml) by done. simpl.
  fold failures. destruct failures as [[[]|e] ml1] eqn:Hf; simpl; [|done].
  rewrite (registry_call_some _ _ _ _ ml1) by done. simpl.
  subst cleared. simpl.
  destruct (ml_clear_reservations ml1) as [[[]|e] ml2] eqn:Hc; simpl.
  - unfold publish, emit, record_call, after. simpl. by rewrite <- !app_assoc.
  - unfold after. by rewrite <- !app_assoc.
Qed.

Lemma offers_request_in_window a ml (timestamp : Timestamp) :
  state a = COLLECT_RESERVATIONS → market_list a = Some ml →
  send_collect_offers_request timestamp a =
    if Z.of_nat (List.length (ml_unformed_market_list ml)) <? ml_market_count ml
    then
      match fst (ml_collect_offers ml) with
      | Raise e =>
          (Raise e,
           mkAgent COLLECT_OFFERS (Some (snd (ml_collect_offers ml)))
             (verbose_logging a) (director a) (calls a ++ [call_collect_offers]))
      | Return _ =>
          (Return tt,
           mkAgent COLLECT_OFFERS (Some (snd (ml_collect_offers ml)))
             (verbose_logging a) (director a)
             (calls a ++
                [call_collect_offers;
                 call_publish "pubsub" MARKET_BID
                   (MsgOffers (format_timestamp timestamp)
                      (ml_unformed_market_list (snd (ml_collect_offers ml))))]))
      end
    else (Return tt, set_state NO_MARKETS a).
Proof.
  intros Hst Hml. unfold send_collect_offers_request, bind.
  rewrite (has_any_markets_some a ml Hml).
  destruct (Z.of_nat (List.length (ml_unformed_market_list ml))
            <? ml_market_count ml).
  - unfold begin_collect_offers, bind, start_offers_has_markets, fire.
    rewrite Hst. simpl.
    rewrite (registry_call_some _ _ _ _ ml) by done. simpl.
    destruct (ml_collect_offers ml) as [[[]|e] ml1]; simpl; [|done].
    unfold registry_query, publish, emit, record_call. simpl.
    by rewrite <- !app_assoc.
  - unfold start_offers_no_markets, fire. by rewrite Hst.
Qed.

Lemma offers_request_elsewhere a (timestamp : Timestamp) :
  state a ≠ COLLECT_RESERVATIONS →
  returned (fst (send_collect_offers_request timestamp a)) = false
  ∧ snd (send_collect_offers_request timestamp a) = a.
Proof.
  intros Hst. unfold send_collect_offers_request, bind.
  destruct (market_list a) as [ml|] eqn:Hml.
  - rewrite (has_any_markets_some a ml Hml).
    destruct (Z.of_nat (List.length (ml_unformed_market_list ml))
              <? ml_market_count ml).
    + unfold begin_collect_offers, bind, start_offers_has_markets.
      destruct (start_offers_outside_window a "start_offers_has_markets")
        as [e ->]; [rewrite events_transitions; right; left|done..].
    + unfold start_offers_no_markets.
      destruct (start_offers_outside_window a "start_offers_no_markets")
        as [e ->]; [rewrite events_transitions; left|done..].
  - unfold has_any_markets, bind, registry_query. by rewrite Hml.
Qed.


(** X5: [send_collect_offers_request] does something only in the phase
    [service_collect_reservations].  Called in any other phase it raises and
    leaves the agent exactly as it was: the phase, the registry and the calls
    made are unchanged, so nothing is published. *)
Theorem offers_request_outside_window :
  ∀ a (timestamp : Timestamp),
    state a ≠ COLLECT_RESERVATIONS →
    returned (fst (send_collect_offers_request timestamp a)) = false
    ∧ snd (send_collect_offers_request timestamp a) = a
    ∧ new_calls a (snd (send_collect_offers_request timestamp a)) = [].
Proof.
  intros a timestamp Hst.
  destruct (offers_request_elsewhere a timestamp Hst) as [Hraised Hsame].
  split; [done|]. split; [done|].
  rewrite Hsame. apply new_calls_app. by rewrite app_nil_r.
Qed.

(** X6: with no registry yet (the agent is built with [market_list = None]
    and gets its registry in [onstart]), both callbacks raise
    [AttributeError] at their first use of the registry.
    [send_collect_offers_request] then leaves the agent as it was, but
    [send_collect_reservations_request] has already fired its trigger: the
    phase is [service_collect_reservations] although the call failed and
    nothing was published. *)
Theorem callbacks_without_registry :
  ∀ a (timestamp : Timestamp),
    market_list a = None →
    send_collect_offers_request timestamp a =
      (Raise (AttributeError
                "'NoneType' object has no attribute 'unformed_market_list'"), a)
    ∧ (state a ∈ [INITIAL_WAIT; COLLECT_OFFERS; NO_MARKETS] →
       send_collect_reservations_request timestamp a =
         (Raise (AttributeError
                   "'NoneType' object has no attribute 'send_market_failure_errors'"),
          set_state COLLECT_RESERVATIONS a)).
Proof.
  intros a timestamp Hml. split.
  - unfold send_collect_offers_request, has_any_markets, bind, registry_query.
    by rewrite Hml.
  - intros Hst. unfold send_collect_reservations_request, bind.
    rewrite (start_reservations_returns a Hst).
    unfold registry_call. simpl. by rewrite Hml.
Qed.

(** X7: the reservation window cannot be opened twice in a row.  After a call
    of [send_collect_reservations_request] in one of the phases
    [service_initial_wait], [service_collect_offers] and
    [service_has_no_markets], however that call ended, a second call raises
    [MachineError] and changes nothing. *)
Theorem reservations_request_twice :
  ∀ a ml (first second : Timestamp),
    market_list a = Some ml →
    state a ∈ [INITIAL_WAIT; COLLECT_OFFERS; NO_MARKETS] →
    let a1 := snd (send_collect_reservations_request first a) in
    state a1 = COLLECT_RESERVATIONS
    ∧ send_collect_reservations_request second a1 =
        (Raise (MachineError
                  "Can't trigger event start_reservations from state service_collect_reservations!"),
         a1).
Proof.
  intros a ml first second Hml Hst a1.
  assert (Hst1 : state a1 = COLLECT_RESERVATIONS).
  { subst a1.
    rewrite (reservations_request_after_start a ml first
               (start_reservations_returns a Hst) Hml).
    destruct (fst (ml_send_market_failure_errors ml)); [|done].
    by destruct (fst (ml_clear_reservations
                        (snd (ml_send_market_failure_errors ml)))). }
  split; [done|].
  unfold send_collect_reservations_request, bind, start_reservations, fire.
  by rewrite Hst1.
Qed.

(** X8: in every phase and with or without a registry,
    [send_collect_reservations_request] returns normally if and only if it
    has published the reservation notice with the formatted timestamp; and
    when it returns, the phase is [service_collect_reservations]. *)
Theorem reservations_request_publishes_iff_returns :
  ∀ a (timestamp : Timestamp),
    let result := send_collect_reservations_request timestamp a in
    (returned (fst result) = true ↔
       call_publish "pubsub" MARKET_RESERVE
         (MsgTimestamp (format_timestamp timestamp))
         ∈ new_calls a (snd result))
    ∧ (returned (fst result) = true →
       state (snd result) = COLLECT_RESERVATIONS).
Proof.
  intros a timestamp result. subst result.
  destruct (start_reservations_cases a) as [Hstart|[e Hstart]].
  - destruct (market_list a) as [ml|] eqn:Hml.
    + rewrite (reservations_request_after_start a ml timestamp Hstart Hml).
      destruct (fst (ml_send_market_failure_errors ml)) as [[]|e1]; simpl.
      * destruct (fst (ml_clear_reservations
                         (snd (ml_send_market_failure_errors ml))))
          as [[]|e2]; simpl;
          (erewrite new_calls_app by reflexivity); split; try done.
        -- split; [intros _|done]. do 2 right. left.
        -- split; [done|]. intros Hin.
           repeat (apply elem_of_cons in Hin as [Hin|Hin]; [discriminate|]).
           by apply elem_of_nil in Hin.
      * erewrite new_calls_app by reflexivity. split; [|done].
        split; [done|]. intros Hin.
        repeat (apply elem_of_cons in Hin as [Hin|Hin]; [discriminate|]).
        by apply elem_of_nil in Hin.
    + unfold send_collect_reservations_request, bind. rewrite Hstart.
      unfold registry_call. simpl. rewrite Hml. simpl.
      erewrite new_calls_app by (simpl; by rewrite app_nil_r).
      split; [|done]. split; [done|]. intros Hin. by apply elem_of_nil in Hin.
  - unfold send_collect_reservations_request, bind. rewrite Hstart. simpl.
    erewrite new_calls_app by (by rewrite app_nil_r).
    split; [|done]. split; [done|]. intros Hin. by apply elem_of_nil in Hin.
Qed.

(** *** Callbacks and remote operations together *)

Lemma reservations_request_returned a (timestamp : Timestamp) :
  returned (fst (send_collect_reservations_request timestamp a)) = true →
  state (snd (send_collect_reservations_request timestamp a))
    = COLLECT_RESERVATIONS
  ∧ is_Some (market_list (snd (send_collect_reservations_request timestamp a))).
Proof.
  destruct (start_reservations_cases a) as [Hstart|[e Hstart]].
  - destruct (market_list a) as [ml|] eqn:Hml.
    + rewrite (reservations_request_after_start a ml timestamp Hstart Hml).
      destruct (fst (ml_send_market_failure_errors ml)) as [[]|e1]; [|done].
      destruct (fst (ml_clear_reservations
                       (snd (ml_send_market_failure_errors ml))))
        as [[]|e2]; [|done].
      simpl. intros _. split; [done|by eexists].
    + unfold send_collect_reservations_request, bind. rewrite Hstart.
      unfold registry_call. simpl. by rewrite Hml.
  - unfold send_collect_reservations_request, bind. by rewrite Hstart.
Qed.

(** X9: once [send_collect_reservations_request] has returned, the window is
    open for reservations and closed for offers: a reservation sent next is
    handed to the registry (the call ends as the registry's [make_reservation]
    ends), and an offer sent next is turned away with its [RuntimeError]. *)
Theorem window_after_reservations_request :
  ∀ a (timestamp : Timestamp) (peer market_name role : string) (offer : Offer),
    returned (fst (send_collect_reservations_request timestamp a)) = true →
    let a1 := snd (send_collect_reservations_request timestamp a) in
    let participant := mkMarketParticipant role peer in
    (∃ ml1, market_list a1 = Some ml1
       ∧ fst (make_reservation peer market_name role a1) =
           fst (ml_make_reservation market_name participant ml1)
       ∧ new_calls a1 (snd (make_reservation peer market_name role a1)) =
           [log_info reservation_accepted_fmt [market_name; role; peer];
            call_make_reservation market_name participant])
    ∧ fst (make_offer peer market_name role offer a1) =
        Raise (RuntimeError
                 "Error: Market service not accepting offers at this time.").
Proof.
  intros a timestamp peer market_name role offer Hret a1 participant.
  destruct (reservations_request_returned a timestamp Hret) as [Hst [ml1 Hml1]].
  fold a1 in Hst, Hml1. split.
  - exists ml1. split; [done|].
    rewrite (make_reservation_accepts a1 ml1) by done. simpl.
    split; [done|]. by erewrite new_calls_app by reflexivity.
  - rewrite make_offer_rejects; [done|]. by rewrite Hst.
Qed.

(** X10: once [send_collect_offers_request] has returned, it was called in
    [service_collect_reservations] and the phase is now
    [service_collect_offers] or [service_has_no_markets]; a reservation sent
    next is turned away, and in [service_has_no_markets] an offer is turned
    away as well. *)
Theorem window_after_offers_request :
  ∀ a (timestamp : Timestamp) (peer market_name role : string) (offer : Offer),
    returned (fst (send_collect_offers_request timestamp a)) = true →
    let a1 := snd (send_collect_offers_request timestamp a) in
    state a = COLLECT_RESERVATIONS
    ∧ (state a1 = COLLECT_OFFERS ∨ state a1 = NO_MARKETS)
    ∧ fst (make_reservation peer market_name role a1) =
        Raise (RuntimeError
                 "Error: Market service not accepting reservations at this time.")
    ∧ (state a1 = NO_MARKETS →
       fst (make_offer peer market_name role offer a1) =
         Raise (RuntimeError
                  "Error: Market service not accepting offers at this time.")).
Proof.
  intros a timestamp peer market_name role offer Hret a1.
  assert (Hst : state a = COLLECT_RESERVATIONS).
  { destruct (decide (state a = COLLECT_RESERVATIONS)) as [|Hne]; [done|].
    destruct (offers_request_elsewhere a timestamp Hne) as [Hf _].
    congruence. }
  assert (Hst1 : state a1 = COLLECT_OFFERS ∨ state a1 = NO_MARKETS).
  { subst a1. destruct (market_list a) as [ml|] eqn:Hml.
    - rewrite (offers_request_in_window a ml timestamp Hst Hml).
      destruct (Z.of_nat (List.length (ml_unformed_market_list ml))
                <? ml_market_count ml); [|by right].
      left. by destruct (fst (ml_collect_offers ml)).
    - revert Hret. unfold send_collect_offers_request, has_any_markets, bind,
        registry_query. by rewrite Hml. }
  split; [done|]. split; [done|]. split.
  - rewrite make_reservation_rejects; [done|].
    destruct Hst1 as [-> | ->]; discriminate.
  - intros Hnm. rewrite make_offer_rejects; [done|]. rewrite Hnm. discriminate.
Qed.

Lemma market_cycle_returns a ml (window : Timestamp * Timestamp) :
  (∀ ml', fst (ml_send_market_failure_errors ml') = Return tt) →
  (∀ ml', fst (ml_clear_reservations ml') = Return tt) →
  (∀ ml', fst (ml_collect_offers ml') = Return tt) →
  market_list a = Some ml →
  state a ∈ [INITIAL_WAIT; COLLECT_OFFERS; NO_MARKETS] →
  fst (market_cycle window a) = Return tt
  ∧ is_Some (market_list (snd (market_cycle window a)))
  ∧ state (snd (market_cycle window a)) ∈ [COLLECT_OFFERS; NO_MARKETS].
Proof.
  intros Hfail Hclear Hcollect Hml Hst. unfold market_cycle, bind.
  rewrite (reservations_request_after_start a ml (fst window)
             (start_reservations_returns a Hst) Hml).
  rewrite Hfail, Hclear.
  erewrite offers_request_in_window by reflexivity.
  destruct (_ <? _).
  - rewrite Hcollect. simpl. split; [done|]. split; [by eexists|left].
  - simpl. split; [done|]. split; [by eexists|right; left].
Qed.

(** X11: the timer's rounds never trip over the state machine.  When the
    registry's three window methods return, any number of rounds, each the
    reservation callback followed by the offer callback, started in one of
    the phases [service_initial_wait], [service_collect_offers] and
    [service_has_no_markets], returns; after at least one round the phase is
    [service_collect_offers] or [service_has_no_markets], from which the next
    round can start. *)
Theorem market_cycles_return :
  ∀ (windows : list (Timestamp * Timestamp)) a ml,
    (∀ ml', fst (ml_send_market_failure_errors ml') = Return tt) →
    (∀ ml', fst (ml_clear_reservations ml') = Return tt) →
    (∀ ml', fst (ml_collect_offers ml') = Return tt) →
    market_list a = Some ml →
    state a ∈ [INITIAL_WAIT; COLLECT_OFFERS; NO_MARKETS] →
    fst (market_cycles windows a) = Return tt
    ∧ (windows ≠ [] →
       state (snd (market_cycles windows a)) ∈ [COLLECT_OFFERS; NO_MARKETS]).
Proof.
  intros windows a ml Hfail Hclear Hcollect. revert a ml.
  induction windows as [|window windows IH]; intros a ml Hml Hst.
  - by split.
  - simpl. unfold bind.
    destruct (market_cycle_returns a ml window Hfail Hclear Hcollect Hml Hst)
      as (Hret & [ml1 Hml1] & Hst1).
    destruct (market_cycle window a) as [o a1]. simpl in *. subst o.
    assert (Hst1' : state a1 ∈ [INITIAL_WAIT; COLLECT_OFFERS; NO_MARKETS])
      by (by right).
    destruct (IH a1 ml1 Hml1 Hst1') as [Hret' Hlast]. split; [done|].
    intros _. destruct windows as [|w ws]; [exact Hst1|].
    by apply Hlast.
Qed.

(** X14: a registry that counts no market never opens the offer window.
    Called in [service_collect_reservations] with a market count of zero (or
    less), whatever the list of unformed markets is,
    [send_collect_offers_request] returns with the phase
    [service_has_no_markets], having called and published nothing. *)
Theorem offers_request_no_market_counted :
  ∀ a ml (timestamp : Timestamp),
    state a = COLLECT_RESERVATIONS →
    market_list a = Some ml →
    ml_market_count ml ≤ 0 →
    send_collect_offers_request timestamp a = (Return tt, set_state NO_MARKETS a).
Proof.
  intros a ml timestamp Hst Hml Hcount.
  rewrite (offers_request_in_window a ml timestamp Hst Hml).
  by rewrite (proj2 (Z.ltb_ge _ _)) by lia.
Qed.

(** X15: the timer callbacks never take in a request.  Every call made by
    [send_collect_reservations_request] is the registry's
    [send_market_failure_errors], its [clear_reservations] or the publication
    of the reservation notice; every call made by
    [send_collect_offers_request] is the registry's [collect_offers] or a
    publication of the formatted timestamp on the offer topic. *)
Theorem callbacks_call_no_intake :
  ∀ a (timestamp : Timestamp) (c : Call),
    (c ∈ new_calls a (snd (send_collect_reservations_request timestamp a)) →
     c ∈ [call_send_market_failure_errors; call_clear_reservations;
          call_publish "pubsub" MARKET_RESERVE
            (MsgTimestamp (format_timestamp timestamp))])
    ∧ (c ∈ new_calls a (snd (send_collect_offers_request timestamp a)) →
       c = call_collect_offers
       ∨ ∃ unformed_markets,
           c = call_publish "pubsub" MARKET_BID
                 (MsgOffers (format_timestamp timestamp) unformed_markets)).
Proof.
  intros a timestamp c. split.
  - destruct (start_reservations_cases a) as [Hstart|[e Hstart]].
    + destruct (market_list a) as [ml|] eqn:Hml.
      * rewrite (reservations_request_after_start a ml timestamp Hstart Hml).
        destruct (fst (ml_send_market_failure_errors ml)) as [[]|e1]; simpl.
        -- destruct (fst (ml_clear_reservations
                            (snd (ml_send_market_failure_errors ml))))
             as [[]|e2]; simpl;
             (erewrite new_calls_app by reflexivity); [done|].
           intros Hc. apply elem_of_cons in Hc as [->|Hc]; [left|].
           apply list_elem_of_singleton in Hc as ->. right; left.
        -- erewrite new_calls_app by reflexivity. intros Hc.
           apply list_elem_of_singleton in Hc as ->. left.
      * unfold send_collect_reservations_request, bind. rewrite Hstart.
        unfold registry_call. simpl. rewrite Hml. simpl.
        erewrite new_calls_app by (simpl; by rewrite app_nil_r).
        intros Hc. by apply elem_of_nil in Hc.
    + unfold send_collect_reservations_request, bind. rewrite Hstart. simpl.
      erewrite new_calls_app by (by rewrite app_nil_r).
      intros Hc. by apply elem_of_nil in Hc.
  - destruct (decide (state a = COLLECT_RESERVATIONS)) as [Hst|Hst].
    + destruct (market_list a) as [ml|] eqn:Hml.
      * rewrite (offers_request_in_window a ml timestamp Hst Hml).
        destruct (_ <? _).
        -- destruct (fst (ml_collect_offers ml)) as [[]|e]; simpl;
             (erewrite new_calls_app by reflexivity); intros Hc.
           ++ apply elem_of_cons in Hc as [->|Hc]; [by left|].
              apply list_elem_of_singleton in Hc as ->. right. by eexists.
           ++ apply list_elem_of_singleton in Hc as ->. by left.
        -- simpl. erewrite new_calls_app by (simpl; by rewrite app_nil_r).
           intros Hc. by apply elem_of_nil in Hc.
      * unfold send_collect_offers_request, has_any_markets, bind,
          registry_query. rewrite Hml. simpl.
        erewrite new_calls_app by (by rewrite app_nil_r).
        intros Hc. by apply elem_of_nil in Hc.
    + destruct (offers_request_elsewhere a timestamp Hst) as [_ ->].
      erewrite new_calls_app by (by rewrite app_nil_r).
      intros Hc. by apply elem_of_nil in Hc.
Qed.

(** *** Startup *)

Context `{Builtins}.

Lemma market_service_agent_loaded (config_path : string)
    (config : gmap string value) (period reservations offers verbose : Z) :
  load_config_or_empty config_path = Return config →
  int (default (VInt 300) (config !! "market_period")) = Return period →
  int (default (VInt 0) (config !! "reservation_delay")) = Return reservations →
  int (default (VInt 120) (config !! "offer_delay")) = Return offers →
  int (default (VBool true) (config !! "verbose_logging")) = Return verbose →
  market_service_agent config_path = __init__ period reservations offers verbose.
Proof.
  intros Hload Hp Hr Ho Hv. unfold market_service_agent.
  by rewrite Hload, Hp, Hr, Ho, Hv.
Qed.

Lemma market_service_agent_empty (config_path : string) :
  load_config_or_empty config_path = Return ∅ →
  market_service_agent config_path = __init__ 300 0 120 1.
Proof.
  intros Hload.
  by apply (market_service_agent_loaded config_path ∅);
    rewrite ?lookup_empty.
Qed.

Lemma market_service_agent_initial (config_path : string) a :
  market_service_agent config_path = Return a →
  state a = INITIAL_WAIT ∧ market_list a = None ∧ calls a = [].
Proof.
  unfold market_service_agent, __init__.
  destruct (load_config_or_empty config_path) as [config|]; [|done].
  destruct (int (default (VInt 300) _)); [|done].
  destruct (int (default (VInt 0) _)); [|done].
  destruct (int (default (VInt 120) _)); [|done].
  destruct (int (default (VBool true) _)); [|done].
  destruct (Director_new _ _ _); [|done]. by intros [= <-].
Qed.

(** X12: a configuration that cannot be loaded is an error only when the
    failure is not a [StandardError].  When loading fails with an exception
    derived from [StandardError], or gives an empty configuration, the agent
    is built as with market period 300, reservation delay 0, offer delay 120
    and verbose logging 1; when it fails with any other exception, that
    exception ends [market_service_agent]. *)
Theorem unloadable_config_defaults :
  ∀ (config_path : string),
    (load_config config_path = Return ∅ →
     market_service_agent config_path = __init__ 300 0 120 1)
    ∧ (∀ e, load_config config_path = Raise e →
            if is_StandardError e
            then market_service_agent config_path = __init__ 300 0 120 1
            else market_service_agent config_path = Raise e).
Proof.
  intros config_path. split.
  - intros Hload. apply market_service_agent_empty.
    unfold load_config_or_empty. by rewrite Hload.
  - intros e Hload. destruct (is_StandardError e) eqn:Hstd.
    + apply market_service_agent_empty.
      unfold load_config_or_empty. by rewrite Hload, Hstd.
    + unfold market_service_agent, load_config_or_empty.
      by rewrite Hload, Hstd.
Qed.

(** X13: no request is admitted by the agent as it is built.  The agent that
    [market_service_agent] returns is in [service_initial_wait] with no
    registry and no call made, and it turns away a reservation and an offer
    alike with their [RuntimeError]. *)
Theorem no_admission_before_first_window :
  ∀ (config_path : string) a (peer market_name role : string) (offer : Offer),
    market_service_agent config_path = Return a →
    state a = INITIAL_WAIT ∧ market_list a = None ∧ calls a = []
    ∧ fst (make_reservation peer market_name role a) =
        Raise (RuntimeError
                 "Error: Market service not accepting reservations at this time.")
    ∧ fst (make_offer peer market_name role offer a) =
        Raise (RuntimeError
                 "Error: Market service not accepting offers at this time.").
Proof.
  intros config_path a peer market_name role offer Hbuilt.
  destruct (market_service_agent_initial config_path a Hbuilt)
    as (Hst & Hml & Hcalls).
  split; [done|]. split; [done|]. split; [done|].
  rewrite make_reservation_rejects, make_offer_rejects;
    [done | rewrite Hst; discriminate..].
Qed.

End Further.

(** ** Startup with the director of the specification *)

Section Startup.

Context `{Platform} `{MarketListOps} `{Builtins}.

(** C8: with the director of the specification, a configuration whose offer
    delay is not below its market period does not start an agent.  For every
    configuration that loads and whose two durations, converted by [int],
    satisfy [period ≤ delay], [market_service_agent] raises; when the other two
    values convert as well it raises [SchedulerMisconfiguration], the
    refusal of the director's constructor, which the agent's code hands the
    durations to unchanged and in the order market period, reservation delay,
    offer delay. *)
Theorem startup_refuses_late_offers :
  ∀ (config_path : string) (config : gmap string value) (period delay : Z),
    load_config config_path = Return config →
    int (default (VInt 300) (config !! "market_period")) = Return period →
    int (default (VInt 120) (config !! "offer_delay")) = Return delay →
    period ≤ delay →
    returned (market_service_agent (H2 := periods_director) config_path) = false
    ∧ (returned (int (default (VInt 0) (config !! "reservation_delay"))) = true →
       returned (int (default (VBool true) (config !! "verbose_logging"))) = true →
       market_service_agent (H2 := periods_director) config_path
         = Raise SchedulerMisconfiguration).
Proof.
  intros config_path config period delay Hload Hperiod Hdelay Hlate.
  unfold market_service_agent, load_config_or_empty.
  rewrite Hload, Hperiod.
  destruct (int (default (VInt 0) (config !! "reservation_delay")))
    as [reservations|e1]; [|by split].
  rewrite Hdelay.
  destruct (int (default (VBool true) (config !! "verbose_logging")))
    as [verbose|e2]; [|by split].
  unfold __init__. simpl.
  rewrite (proj2 (Z.ltb_ge delay period)) by lia. by split.
Qed.

End Startup.

(** ** The registry of the specification *)

Lemma filter_shorter_iff {A} (keep : A → bool) (l : list A) :
  (List.length (List.filter keep l) < List.length l)%nat
  ↔ ∃ x, x ∈ l ∧ keep x = false.
Proof.
  induction l as [|x l IH]; simpl.
  - split; [lia|]. intros (x & Hx & _). by apply elem_of_nil in Hx.
  - pose proof (List.filter_length_le keep l) as Hle.
    destruct (keep x) eqn:Hk; simpl.
    + rewrite <- Nat.succ_lt_mono, IH. split.
      * intros (y & Hy & Hky). exists y. split; [by right|done].
      * intros (y & Hy & Hky). apply elem_of_cons in Hy as [->|Hy];
          [congruence|]. by exists y.
    + split; [|lia]. intros _. exists x. split; [by left|done].
Qed.

(** In the registry of the specification the comparison of the two counts
    made by [has_any_markets] holds exactly when some market has formed. *)
Lemma registry_count_rule_formed (r : Registry.t) :
  Z.of_nat (List.length (Registry.unformed_market_list r)) < Registry.market_count r
  ↔ ∃ name ps, Registry.markets r !! name = Some ps
               ∧ Registry.has_market_formed ps = true.
Proof.
  unfold Registry.unformed_market_list, Registry.market_count.
  rewrite length_fmap, <- length_map_to_list, <- Nat2Z.inj_lt.
  rewrite filter_shorter_iff. split.
  - intros ([name ps] & Hin & Hformed). exists name, ps.
    apply elem_of_map_to_list in Hin. split; [done|].
    simpl in Hformed. by apply negb_false_iff.
  - intros (name & ps & Hlook & Hformed). exists (name, ps). split.
    + by apply elem_of_map_to_list.
    + simpl. by rewrite Hformed.
Qed.

(** ** The agent on the sample platform *)

#[local] Existing Instances sample_platform tuple_curves Registry.ops
  periods_director decimal_builtins.

(** The request of the first scenario: a buyer reserves in market M1 once the
    reservation window is open, and is turned away before. *)
Example reservation_after_window_open :
  let a0 := sample_agent INITIAL_WAIT (Registry.mk ∅ []) in
  fst (make_reservation "agent-a" "M1" "buyer" a0) =
    Raise (RuntimeError
             "Error: Market service not accepting reservations at this time.")
  ∧ (let a1 := snd (send_collect_reservations_request 0 a0) in
     state a1 = COLLECT_RESERVATIONS
     ∧ fst (make_reservation "agent-a" "M1" "buyer" a1) = Return tt).
Proof. vm_compute. repeat split. Qed.

(** C1, at a concrete request. *)
Lemma make_reservation_admission_witness :
  let a0 := sample_agent COLLECT_RESERVATIONS (Registry.mk ∅ []) in
  market_list a0 = Some (Registry.mk ∅ [])
  ∧ (state a0 = COLLECT_RESERVATIONS ↔
       call_make_reservation "M1" (mkMarketParticipant "buyer" "agent-a")
         ∈ new_calls a0 (snd (make_reservation "agent-a" "M1" "buyer" a0))).
Proof.
  split; [reflexivity|].
  exact (proj1 (make_reservation_admission
                  (sample_agent COLLECT_RESERVATIONS (Registry.mk ∅ []))
                  (Registry.mk ∅ []) "agent-a" "M1" "buyer" eq_refl)).
Defined.

(** C2, at a concrete offer. *)
Lemma make_offer_admission_witness :
  let a0 := sample_agent COLLECT_OFFERS two_markets in
  let offer := [(RawNum 10, RawNum 5); (RawNum 12, RawNum 3)] in
  market_list a0 = Some two_markets
  ∧ (state a0 = COLLECT_OFFERS ↔
       log_info offer_accepted_fmt ["M1"; "seller"; "agent-b"]
         ∈ new_calls a0 (snd (make_offer "agent-b" "M1" "seller" offer a0))).
Proof.
  split; [reflexivity|].
  exact (proj1 (make_offer_admission
                  (sample_agent COLLECT_OFFERS two_markets) two_markets
                  "agent-b" "M1" "seller"
                  [(RawNum 10, RawNum 5); (RawNum 12, RawNum 3)] eq_refl)).
Defined.

(** C3: in [service_initial_wait] the table has no edge for
    [start_offers_no_markets]; firing it does not return [False], it
    raises. *)
Lemma unmatched_trigger_does_raise :
  let a0 := sample_agent INITIAL_WAIT (Registry.mk ∅ []) in
  Machine.candidates transitions "start_offers_no_markets" (state a0) = []
  ∧ fire "start_offers_no_markets" a0 =
      (Raise (MachineError
                "Can't trigger event start_offers_no_markets from state service_initial_wait!"),
       a0)
  ∧ fst (fire "start_offers_no_markets" a0) ≠ Return false.
Proof. vm_compute. repeat split. discriminate. Qed.

(** C3 as amended, at that trigger. *)
Lemma unmatched_trigger_raises_witness :
  let a0 := sample_agent INITIAL_WAIT (Registry.mk ∅ []) in
  "start_offers_no_markets" ∈ Machine.events transitions
  ∧ Machine.candidates transitions "start_offers_no_markets" (state a0) = []
  ∧ fire "start_offers_no_markets" a0 =
      (Raise (MachineError
                ("Can't trigger event " +:+ "start_offers_no_markets"
                 +:+ " from state " +:+ state a0 +:+ "!")), a0).
Proof.
  assert (Hev : "start_offers_no_markets" ∈ Machine.events transitions)
    by (vm_compute; left).
  split; [exact Hev|]. split; [reflexivity|].
  exact (unmatched_trigger_raises
           (sample_agent INITIAL_WAIT (Registry.mk ∅ []))
           "start_offers_no_markets" Hev eq_refl).
Defined.



(** The second and third scenarios run: with M1 unformed the phase becomes
    [service_has_no_markets] and nothing is published; with M1 formed the
    phase becomes [service_collect_offers] and the notice lists M2 only. *)
Example offers_window_scenarios :
  send_collect_offers_request 120
      (sample_agent COLLECT_RESERVATIONS one_unformed) =
    (Return tt, sample_agent NO_MARKETS one_unformed)
  ∧ ml_unformed_market_list one_unformed = ["M1"]
  ∧ (let a := snd (send_collect_offers_request 120
                     (sample_agent COLLECT_RESERVATIONS two_markets)) in
     state a = COLLECT_OFFERS
     ∧ calls a = [call_collect_offers;
                  call_publish "pubsub" "market/bid" (MsgOffers "120" ["M2"])]).
Proof. vm_compute. repeat split. Qed.

(** C5, on a registry with two markets of which one is unformed. *)
Lemma has_any_markets_count_rule_witness :
  let a0 := sample_agent COLLECT_RESERVATIONS two_markets in
  market_list a0 = Some two_markets
  ∧ has_any_markets a0 = (Return true, a0).
Proof.
  split; [reflexivity|].
  exact (proj1 (has_any_markets_count_rule
                  (sample_agent COLLECT_RESERVATIONS two_markets) two_markets
                  eq_refl)).
Defined.

(** C6, on a run of two market cycles with a repeated trigger. *)
Lemma phases_stay_declared_witness :
  let a0 := sample_agent INITIAL_WAIT (Registry.mk ∅ []) in
  let names := ["start_offers_no_markets"; "start_reservations";
                "start_offers_has_markets"; "start_reservations";
                "start_reservations"; "start_offers_no_markets"] in
  state a0 = INITIAL_WAIT
  ∧ Forall (λ n, n ∈ Machine.events transitions) names
  ∧ Forall (λ s, s ∈ states) (state a0 :: phases_observed names a0)
  ∧ never_reentered (state a0 :: phases_observed names a0).
Proof.
  assert (Hnames : Forall (λ n, n ∈ Machine.events transitions)
                     ["start_offers_no_markets"; "start_reservations";
                      "start_offers_has_markets"; "start_reservations";
                      "start_reservations"; "start_offers_no_markets"])
    by (rewrite events_transitions; repeat constructor).
  split; [reflexivity|]. split; [exact Hnames|].
  exact (phases_stay_declared _
           (sample_agent INITIAL_WAIT (Registry.mk ∅ [])) eq_refl Hnames).
Defined.

Example phases_of_two_cycles :
  phases_observed
    ["start_offers_no_markets"; "start_reservations";
     "start_offers_has_markets"; "start_reservations";
     "start_reservations"; "start_offers_no_markets"]
    (sample_agent INITIAL_WAIT (Registry.mk ∅ [])) =
  [INITIAL_WAIT; COLLECT_RESERVATIONS; COLLECT_OFFERS; COLLECT_RESERVATIONS;
   COLLECT_RESERVATIONS; NO_MARKETS].
Proof. reflexivity. Qed.

(** C7: called in [service_collect_reservations], the request raises at its
    first step: [start_reservations] does not succeed from that phase, the
    registry is not called and nothing is published. *)
Lemma reservations_request_fails_when_collecting :
  let a0 := sample_agent COLLECT_RESERVATIONS two_markets in
  state a0 ∈ states
  ∧ send_collect_reservations_request 300 a0 =
      (Raise (MachineError
                "Can't trigger event start_reservations from state service_collect_reservations!"),
       a0)
  ∧ new_calls a0 (snd (send_collect_reservations_request 300 a0)) = [].
Proof.
  split; [vm_compute; right; left|]. split; reflexivity.
Qed.

(** C7 as amended, at the end of an offer window. *)
Lemma reservations_request_steps_witness :
  let a0 := sample_agent COLLECT_OFFERS two_markets in
  market_list a0 = Some two_markets
  ∧ state a0 ∈ [INITIAL_WAIT; COLLECT_OFFERS; NO_MARKETS]
  ∧ send_collect_reservations_request 300 a0 =
      (Return tt,
       mkAgent COLLECT_RESERVATIONS (Some (Registry.clear_reservations two_markets))
         1 (mkPeriods 300 0 120)
         [call_send_market_failure_errors; call_clear_reservations;
          call_publish "pubsub" MARKET_RESERVE
            (MsgTimestamp (format_timestamp (300 : Z)))]).
Proof.
  assert (Hst : state (sample_agent COLLECT_OFFERS two_markets)
                ∈ [INITIAL_WAIT; COLLECT_OFFERS; NO_MARKETS])
    by (right; left).
  split; [reflexivity|]. split; [exact Hst|].
  exact (proj1 (reservations_request_steps
                  (sample_agent COLLECT_OFFERS two_markets) two_markets 300
                  eq_refl) Hst).
Defined.

(** C8, on the configuration file whose offer delay, 200, is not below its
    market period, 100. *)
Lemma startup_refuses_late_offers_witness :
  (∃ config,
     load_config "late_offers" = Return config
     ∧ int (default (VInt 300) (config !! "market_period")) = Return 100
     ∧ int (default (VInt 120) (config !! "offer_delay")) = Return 200)
  ∧ 100 ≤ 200
  ∧ market_service_agent "late_offers" = Raise SchedulerMisconfiguration.
Proof.
  assert (Hlate : 100 ≤ 200) by lia.
  split; [eexists; split; [reflexivity|split; reflexivity]|].
  split; [exact Hlate|].
  exact (proj2 (startup_refuses_late_offers "late_offers"
                  {[ "market_period" := VInt 100; "offer_delay" := VInt 200 ]}
                  100 200 eq_refl eq_refl eq_refl Hlate) eq_refl eq_refl).
Defined.

(** The sample configuration, and a path at which nothing can be loaded,
    start the agent with the documented values; a period written as a string
    and a delay given as a float are converted; a period that is no number
    ends the startup. *)
Example sample_configuration_starts :
  market_service_agent "config" =
    Return (mkAgent INITIAL_WAIT None 1 (mkPeriods 300 0 120) [])
  ∧ market_service_agent "missing" =
      Return (mkAgent INITIAL_WAIT None 1 (mkPeriods 300 0 120) [])
  ∧ market_service_agent "written_out" =
      Return (mkAgent INITIAL_WAIT None 1 (mkPeriods 600 0 120) [])
  ∧ market_service_agent "no_number" =
      Raise (ValueError
               "invalid literal for int() with base 10: 'five minutes'").
Proof. repeat split; reflexivity. Qed.

(** C9, on the malformed curve of the third scenario. *)
Lemma malformed_offer_stores_nothing_witness :
  let a0 := sample_agent COLLECT_OFFERS two_markets in
  let offer := [(RawStr "x", RawStr "y")] in
  state a0 = COLLECT_OFFERS
  ∧ parse_tupples offer = None
  ∧ fst (make_offer "agent-b" "M1" "seller" offer a0) = Raise MalformedCurve
  ∧ market_list (snd (make_offer "agent-b" "M1" "seller" offer a0))
      = Some two_markets
  ∧ state (snd (make_offer "agent-b" "M1" "seller" offer a0)) = COLLECT_OFFERS.
Proof.
  pose proof (malformed_offer_stores_nothing
                (sample_agent COLLECT_OFFERS two_markets)
                "agent-b" "M1" "seller" [(RawStr "x", RawStr "y")]
                eq_refl eq_refl) as (Herr & _ & Hml & _ & _ & _ & Hst).
  split; [reflexivity|]. split; [reflexivity|].
  split; [exact Herr|]. split; [exact Hml|exact Hst].
Defined.

(** The well-formed curve of the third scenario reaches the registry. *)
Example well_formed_offer_is_stored :
  let a0 := sample_agent COLLECT_OFFERS two_markets in
  let result :=
    make_offer "agent-b" "M1" "seller"
      [(RawNum 10, RawNum 5); (RawNum 12, RawNum 3)] a0 in
  fst result = Return tt
  ∧ (Registry.offers <$> market_list (snd result)) =
      Some [("M1", mkMarketParticipant "seller" "agent-b", [(10, 5); (12, 3)])].
Proof. vm_compute. split; reflexivity. Qed.

(** ** Further properties, on the sample platform *)

(** X1, for [start_offers_has_markets] during a reservation window. *)
Lemma fire_returns_iff_edge_witness :
  let a0 := sample_agent COLLECT_RESERVATIONS two_markets in
  "start_offers_has_markets" ∈ Machine.events transitions
  ∧ fire "start_offers_has_markets" a0 = (Return true, set_state COLLECT_OFFERS a0).
Proof.
  assert (Hn : "start_offers_has_markets" ∈ Machine.events transitions)
    by (rewrite events_transitions; right; left).
  split; [exact Hn|].
  exact (proj1 (fire_returns_iff_edge
                  (sample_agent COLLECT_RESERVATIONS two_markets)
                  "start_offers_has_markets" Hn)
           (mkTransition "start_offers_has_markets" COLLECT_RESERVATIONS
              COLLECT_OFFERS)
           ltac:(unfold transitions; do 2 right; left) eq_refl eq_refl).
Defined.

(** X2, for [start_reservations] in the phase that has no edge for it. *)
Lemma trigger_success_table_witness :
  let a0 := sample_agent COLLECT_RESERVATIONS two_markets in
  state a0 ∈ states
  ∧ "start_reservations" ∈ Machine.events transitions
  ∧ returned (fst (fire "start_reservations" a0)) = false.
Proof.
  assert (Hs : state (sample_agent COLLECT_RESERVATIONS two_markets) ∈ states)
    by (right; left).
  assert (Hn : "start_reservations" ∈ Machine.events transitions)
    by (rewrite events_transitions; do 2 right; left).
  split; [exact Hs|]. split; [exact Hn|].
  destruct (returned (fst (fire "start_reservations"
                             (sample_agent COLLECT_RESERVATIONS two_markets))))
    eqn:Hret; [|reflexivity].
  exfalso.
  apply (proj1 (proj1 (trigger_success_table
                         (sample_agent COLLECT_RESERVATIONS two_markets)
                         "start_reservations" Hs Hn) Hret) eq_refl).
  reflexivity.
Defined.

(** X5, for an offer callback that comes during an offer window. *)
Lemma offers_request_outside_window_witness :
  let a0 := sample_agent COLLECT_OFFERS two_markets in
  state a0 ≠ COLLECT_RESERVATIONS
  ∧ snd (send_collect_offers_request 420 a0) = a0.
Proof.
  assert (Hst : state (sample_agent COLLECT_OFFERS two_markets)
                ≠ COLLECT_RESERVATIONS) by discriminate.
  split; [exact Hst|].
  exact (proj1 (proj2 (offers_request_outside_window
                  (sample_agent COLLECT_OFFERS two_markets) 420 Hst))).
Defined.

(** X6, on the agent as the sample configuration builds it. *)
Lemma callbacks_without_registry_witness :
  let a0 := mkAgent INITIAL_WAIT None 1 (mkPeriods 300 0 120) [] in
  market_list a0 = None
  ∧ send_collect_offers_request 120 a0 =
      (Raise (AttributeError
                "'NoneType' object has no attribute 'unformed_market_list'"), a0).
Proof.
  split; [reflexivity|].
  exact (proj1 (callbacks_without_registry
                  (mkAgent INITIAL_WAIT None 1 (mkPeriods 300 0 120) []) 120
                  eq_refl)).
Defined.

(** X7, at the start of the first round. *)
Lemma reservations_request_twice_witness :
  let a0 := sample_agent INITIAL_WAIT (Registry.mk ∅ []) in
  market_list a0 = Some (Registry.mk ∅ [])
  ∧ state a0 ∈ [INITIAL_WAIT; COLLECT_OFFERS; NO_MARKETS]
  ∧ state (snd (send_collect_reservations_request 0 a0)) = COLLECT_RESERVATIONS.
Proof.
  assert (Hst : state (sample_agent INITIAL_WAIT (Registry.mk ∅ []))
                ∈ [INITIAL_WAIT; COLLECT_OFFERS; NO_MARKETS]) by left.
  split; [reflexivity|]. split; [exact Hst|].
  exact (proj1 (reservations_request_twice
                  (sample_agent INITIAL_WAIT (Registry.mk ∅ []))
                  (Registry.mk ∅ []) 0 300 eq_refl Hst)).
Defined.

(** X9, after the reservation window that follows an offer window. *)
Lemma window_after_reservations_request_witness :
  let a0 := sample_agent COLLECT_OFFERS two_markets in
  returned (fst (send_collect_reservations_request 300 a0)) = true
  ∧ fst (make_offer "agent-b" "M1" "seller" [(RawNum 10, RawNum 5)]
           (snd (send_collect_reservations_request 300 a0))) =
      Raise (RuntimeError
               "Error: Market service not accepting offers at this time.").
Proof.
  split; [reflexivity|].
  exact (proj2 (window_after_reservations_request
                  (sample_agent COLLECT_OFFERS two_markets) 300
                  "agent-b" "M1" "seller" [(RawNum 10, RawNum 5)] eq_refl)).
Defined.

(** X10, after an offer window that opens with one formed market. *)
Lemma window_after_offers_request_witness :
  let a0 := sample_agent COLLECT_RESERVATIONS two_markets in
  returned (fst (send_collect_offers_request 120 a0)) = true
  ∧ fst (make_reservation "agent-c" "M2" "seller"
           (snd (send_collect_offers_request 120 a0))) =
      Raise (RuntimeError
               "Error: Market service not accepting reservations at this time.").
Proof.
  split; [reflexivity|].
  exact (proj1 (proj2 (proj2 (window_after_offers_request
                  (sample_agent COLLECT_RESERVATIONS two_markets) 120
                  "agent-c" "M2" "seller" [] eq_refl)))).
Defined.

(** X11, for three rounds from the start. *)
Lemma market_cycles_return_witness :
  let a0 := sample_agent INITIAL_WAIT (Registry.mk ∅ []) in
  (∀ ml', fst (ml_send_market_failure_errors ml') = Return tt)
  ∧ (∀ ml', fst (ml_clear_reservations ml') = Return tt)
  ∧ (∀ ml', fst (ml_collect_offers ml') = Return tt)
  ∧ market_list a0 = Some (Registry.mk ∅ [])
  ∧ state a0 ∈ [INITIAL_WAIT; COLLECT_OFFERS; NO_MARKETS]
  ∧ fst (market_cycles [(0, 120); (300, 420); (600, 720)] a0) = Return tt.
Proof.
  assert (Hst : state (sample_agent INITIAL_WAIT (Registry.mk ∅ []))
                ∈ [INITIAL_WAIT; COLLECT_OFFERS; NO_MARKETS]) by left.
  split; [reflexivity|]. split; [reflexivity|]. split; [reflexivity|].
  split; [reflexivity|]. split; [exact Hst|].
  exact (proj1 (market_cycles_return [(0, 120); (300, 420); (600, 720)]
                  (sample_agent INITIAL_WAIT (Registry.mk ∅ []))
                  (Registry.mk ∅ [])
                  (λ _, eq_refl) (λ _, eq_refl) (λ _, eq_refl) eq_refl Hst)).
Defined.

(** X13, on the sample configuration. *)
Lemma no_admission_before_first_window_witness :
  market_service_agent "config" =
    Return (mkAgent INITIAL_WAIT None 1 (mkPeriods 300 0 120) [])
  ∧ fst (make_offer "agent-a" "M1" "buyer" [(RawNum 10, RawNum 5)]
           (mkAgent INITIAL_WAIT None 1 (mkPeriods 300 0 120) []))
    = Raise (RuntimeError
               "Error: Market service not accepting offers at this time.").
Proof.
  split; [reflexivity|].
  exact (proj2 (proj2 (proj2 (proj2
           (no_admission_before_first_window "config"
              (mkAgent INITIAL_WAIT None 1 (mkPeriods 300 0 120) [])
              "agent-a" "M1" "buyer" [(RawNum 10, RawNum 5)] eq_refl))))).
Defined.

(** X14, when the reservation window has brought no reservation. *)
Lemma offers_request_no_market_counted_witness :
  let a0 := sample_agent COLLECT_RESERVATIONS (Registry.mk ∅ []) in
  state a0 = COLLECT_RESERVATIONS
  ∧ market_list a0 = Some (Registry.mk ∅ [])
  ∧ ml_market_count (Registry.mk ∅ []) ≤ 0
  ∧ send_collect_offers_request 120 a0 = (Return tt, set_state NO_MARKETS a0).
Proof.
  assert (Hcount : ml_market_count (Registry.mk ∅ []) ≤ 0) by (vm_compute; discriminate).
  split; [reflexivity|]. split; [reflexivity|]. split; [exact Hcount|].
  exact (offers_request_no_market_counted
           (sample_agent COLLECT_RESERVATIONS (Registry.mk ∅ []))
           (Registry.mk ∅ []) 120 eq_refl eq_refl Hcount).
Defined.
